(** * Student Performance Classification: the Streamlit script [app.py]

    The repository is one Streamlit script.  Streamlit runs the whole script
    from its first line to its last on every render cycle: once when a session
    opens and once more after every interaction with a widget.  A widget call
    such as [st.slider] returns the value the session holds for that widget,
    or the widget's declared default when the session holds none; when a run
    ends, the session keeps the state of the widgets that run has called and
    of no other.

    The script is embedded as a computation in a small monad that threads the
    widgets registered by the run, the elements rendered and the effects
    performed, and that stops at the first uncaught Python exception.  Python
    floats are modelled as exact rationals. *)

From Stdlib Require Import QArith Qround Lqa.
From stdpp Require Import gmap strings list fin_maps.

Open Scope string_scope.
Open Scope list_scope.

(** ** Python values held by widgets and data-frame cells *)

Inductive Value : Type :=
| VFloat (q : Q)
| VInt (z : Z)
| VStr (s : string)
| VBool (b : bool)
| VNone.

(** [v == "literal"] in Python: a value that is not a [str] is never equal
    to a string literal. *)
Definition str_eq (v : Value) (s : string) : bool :=
  match v with
  | VStr t => String.eqb t s
  | _ => false
  end.

(** ** pandas data frames *)

(** A frame is its column names and its rows; a cell is [None] where the
    record the row was built from has no entry for the column. *)
Record DataFrame : Type := mkDataFrame {
  columns : list string;
  rows : list (list (option Value))
}.

(** A Python [dict] literal with string keys, kept in insertion order. *)
Abbreviation Dict := (list (string * Value)).

Definition dict_get (d : Dict) (k : string) : option Value :=
  snd <$> List.find (λ kv, String.eqb (fst kv) k) d.

Fixpoint add_new (seen : list string) (ks : list string) : list string :=
  match ks with
  | [] => seen
  | k :: ks =>
      if existsb (String.eqb k) seen then add_new seen ks
      else add_new (seen ++ [k]) ks
  end.

(** [pd.DataFrame(records)] for a list of dicts: the columns are the keys in
    order of first appearance, one row per record. *)
Definition DataFrame_of_records (records : list Dict) : DataFrame :=
  let cols := fold_left (λ seen d, add_new seen (fst <$> d)) records [] in
  {| columns := cols;
     rows := (λ d, dict_get d <$> cols) <$> records |}.

(** [pd.DataFrame(items, columns=[c1, c2])] for a sequence of pairs. *)
Definition DataFrame_of_items (items : list (string * string))
    (cols : list string) : DataFrame :=
  {| columns := cols;
     rows := (λ kv, [Some (VStr (fst kv)); Some (VStr (snd kv))]) <$> items |}.

(** ** Exceptions, and the files the script reads *)

Inductive Exn : Type :=
| FileNotFoundError (path : string)
| UnreadableFile (path : string)     (* the loader rejects the file's content *)
| ValueError
| IndexError
| AttributeError
| OtherError (name : string).        (* any other exception, by its name *)

(** What a file can hold.  [joblib.load] accepts every pickle, whatever
    object it holds; the only thing the script ever does with the object is
    call its [predict], so a pickle is told apart by whether its object has
    that method.  [predict] is the method as it behaves: on a frame it
    returns labels, or raises. *)
Inductive File : Type :=
| Pickle (predict : DataFrame → Exn + list Z)
| PickleOther                        (* a pickle of an object without [predict] *)
| Jpeg
| Other.

Abbreviation FileSystem := (string → option File).

(** The object [joblib.load] returns. *)
Inductive PyObject : Type :=
| Classifier (predict : DataFrame → Exn + list Z)
| Object.

Definition unpickle (f : File) : option PyObject :=
  match f with
  | Pickle predict => Some (Classifier predict)
  | PickleOther => Some Object
  | Jpeg | Other => None
  end.

(** ** Streamlit widgets *)

Inductive WidgetSpec : Type :=
| slider_float (min_value max_value value step : Q)
| slider_int (min_value max_value value : Z)
| number_input (min_value max_value value step : Q)
| selectbox (options : list string)
| radio (options : list string)
| button.

#[export] Instance Q_eq_dec : EqDecision Q.
Proof. solve_decision. Defined.

#[export] Instance WidgetSpec_eq_dec : EqDecision WidgetSpec.
Proof. solve_decision. Defined.

(** The value a widget has before the user touches it: the [value] argument,
    or the first option ([index=0]) of a select box or radio group. *)
Definition default_value (spec : WidgetSpec) : Value :=
  match spec with
  | slider_float _ _ v _ => VFloat v
  | slider_int _ _ v => VInt v
  | number_input _ _ v _ => VFloat v
  | selectbox opts | radio opts =>
      match opts with
      | o :: _ => VStr o
      | [] => VNone
      end
  | button => VBool false
  end.

(** A button is a trigger: it reads [True] in the run its click causes and
    is back to [False] afterwards.  Every other widget keeps its value. *)
Definition settle (spec : WidgetSpec) (v : Value) : Value :=
  match spec with
  | button => VBool false
  | _ => v
  end.

(** The widget state of a session: per widget label, the parameters it was
    last rendered with and its current value. *)
Abbreviation Store := (gmap string (WidgetSpec * Value)).

(** What a widget call returns: the session's value when the session holds
    a widget of this label and these parameters, the default otherwise. *)
Definition widget_value (s : Store) (label : string) (spec : WidgetSpec) : Value :=
  match s !! label with
  | Some (spec', v) => if decide (spec' = spec) then v else default_value spec
  | None => default_value spec
  end.

(** *** User interaction *)

Inductive Action : Type :=
| Pick (k : nat)      (* slider position, or index of an option *)
| Enter (q : Q)       (* number typed or stepped into a number input *)
| Click.

Record Event : Type := mkEvent { target : string; action : Action }.

(** Number of steps between the two ends of a float slider. *)
Definition slider_steps (min_value max_value step : Q) : Z :=
  Qfloor ((max_value - min_value) / step).

(** The value an action gives a widget, [None] when the widget offers no
    such position, refuses the number, or does not react to the action.  A
    slider offers the positions [min_value + k * step] up to [max_value]
    (an integer slider has step 1); a number input accepts any number
    within its bounds and refuses every other; a select box or radio group
    offers its options; a button can only be clicked. *)
Definition react (spec : WidgetSpec) (a : Action) : option Value :=
  match spec, a with
  | slider_float mn mx _ st, Pick k =>
      if (Z.of_nat k <=? slider_steps mn mx st)%Z
      then Some (VFloat (Qred (mn + inject_Z (Z.of_nat k) * st)))
      else None
  | slider_int mn mx _, Pick k =>
      if (mn + Z.of_nat k <=? mx)%Z then Some (VInt (mn + Z.of_nat k)) else None
  | number_input mn mx _ _, Enter q =>
      if Qle_bool mn q && Qle_bool q mx then Some (VFloat q) else None
  | selectbox opts, Pick i | radio opts, Pick i => VStr <$> opts !! i
  | button, Click => Some (VBool true)
  | _, _ => None
  end.

(** An event reaches only a widget that is on the page. *)
Definition apply_event (s : Store) (ev : Event) : Store :=
  match s !! target ev with
  | Some (spec, _) =>
      match react spec (action ev) with
      | Some v => <[target ev := (spec, v)]> s
      | None => s
      end
  | None => s
  end.

(** ** What a run produces *)

Inductive Container : Type :=
| Main
| Sidebar
| Column (i : nat).

Inductive Element : Type :=
| page_config (page_title layout : string)
| title (body : string)
| markdown (body : string)
| image (path : string) (use_container_width : bool)
| columns_block (n : nat)
| metric (label value : string)
| dataframe (data : DataFrame) (use_container_width : bool)
| widget (label : string) (spec : WidgetSpec) (v : Value)
| success (body : string).

Inductive Effect : Type :=
| JoblibLoad (path : string)
| ImageOpen (path : string)
| ModelPredict (data : DataFrame).

Record RunState : Type := mkRunState {
  widgets : Store;                       (* widgets called so far in this run *)
  out : list (Container * Element);      (* elements rendered so far *)
  log : list Effect                      (* effects performed so far *)
}.

Record Env : Type := mkEnv {
  fs : FileSystem;
  session : Store                        (* widget state the run starts from *)
}.

(** ** The script monad *)

Definition M (A : Type) : Type := Env → RunState → RunState * (Exn + A).

#[export] Instance M_ret : MRet M := λ A a _ st, (st, inr a).

#[export] Instance M_bind : MBind M := λ A B k m env st,
  match m env st with
  | (st', inr a) => k a env st'
  | (st', inl e) => (st', inl e)
  end.

Definition raise {A : Type} (e : Exn) : M A := λ _ st, (st, inl e).

Definition emit (c : Container) (e : Element) : M unit := λ _ st,
  ({| widgets := widgets st; out := out st ++ [(c, e)]; log := log st |}, inr tt).

Definition perform (e : Effect) : M unit := λ _ st,
  ({| widgets := widgets st; out := out st; log := log st ++ [e] |}, inr tt).

(** A widget call: returns the session's value, shows the widget, and
    registers it as called in this run. *)
Definition st_widget (c : Container) (label : string) (spec : WidgetSpec) : M Value :=
  λ env st,
    let v := widget_value (session env) label spec in
    ({| widgets := <[label := (spec, settle spec v)]> (widgets st);
        out := out st ++ [(c, widget label spec v)];
        log := log st |}, inr v).

(** [open(path)]: the file at [path], or [FileNotFoundError]. *)
Definition open_file (path : string) : M File := λ env st,
  match fs env path with
  | Some f => (st, inr f)
  | None => (st, inl (FileNotFoundError path))
  end.

(** [joblib.load]: the object of any pickle, with no check of what it is. *)
Definition joblib_load (path : string) : M PyObject :=
  perform (JoblibLoad path);;
  f ← open_file path;
  match unpickle f with
  | Some model => mret model
  | None => raise (UnreadableFile path)
  end.

(** [Image.open]: the image object is represented by the path it was
    opened from. *)
Definition Image_open (path : string) : M string :=
  perform (ImageOpen path);;
  f ← open_file path;
  match f with
  | Jpeg => mret path
  | _ => raise (UnreadableFile path)
  end.

Definition st_columns (c : Container) (n : nat) : M (list Container) :=
  emit c (columns_block n);; mret (Column <$> seq 0 n).

(** [a, b = xs] *)
Definition unpack2 {A : Type} (xs : list A) : M (A * A) :=
  match xs with
  | [a; b] => mret (a, b)
  | _ => raise ValueError
  end.

(** [model.predict(data)]: looking up [predict] on an object that has none
    raises [AttributeError] before any call; a call returns the labels or
    raises what the method raises. *)
Definition model_predict (model : PyObject) (data : DataFrame) : M (list Z) :=
  match model with
  | Classifier predict =>
      perform (ModelPredict data);;
      match predict data with
      | inr labels => mret labels
      | inl e => raise e
      end
  | Object => raise AttributeError
  end.

(** [xs[0]] *)
Definition item0 (xs : list Z) : M Z :=
  match xs with
  | x :: _ => mret x
  | [] => raise IndexError
  end.

Definition truthy (v : Value) : bool :=
  match v with
  | VBool b => b
  | VInt z => negb (z =? 0)%Z
  | VFloat q => negb (Qeq_bool q 0)
  | VStr s => match s with EmptyString => false | String _ _ => true end
  | VNone => false
  end.

(** ** The script *)

Definition model_path : string := "exam_score_calss_model.pkl".
Definition image_path : string := "dom-fou-YRMWVcdyhmI-unsplash.jpg".

Definition pages : list string :=
  ["Project Overview"; "Feature Explanation"; "Prediction"].

Definition overview_text : string := "
### 🔍 What is this dataset about?
This dataset is designed to analyze and predict students' academic performance by 
capturing a wide range of behavioral, psychological, and lifestyle factors.

It includes information related to:
- **Student behavior** (study habits, time management, screen usage)
- **Mental health** (stress level, exam anxiety, psychological well-being)
- **Family support** (parental support and family background)
- **Lifestyle patterns** (sleep quality, diet, and daily routines)

---

### 🎯 Project Objective
The main goal of this project is to **predict the student's final exam score (Exam Score)**  
based on these combined factors, helping to understand what truly drives academic success.

---

### 🛠 What did we do?
- Data Cleaning and Validation  
- Feature Engineering (e.g., study efficiency, sleep quality, screen time impact)  
- Encoding Categorical Features  
- Scaling Numerical Features  
- Training and Comparing Multiple Regression Models  
- Hyperparameter Tuning using **Randomized Search**  
- Selecting the Best-Performing Model  

---

### 💡 Why is this useful?
- **Early identification** of students at risk of low academic performance  
- Helping **schools and educators** make data-driven interventions  
- Supporting **parents** in understanding factors affecting their children’s performance  
- Guiding **students** toward improving specific behaviors to enhance outcomes  
- Enabling **data-driven academic decision-making** instead of intuition-based judgment  

This project demonstrates how data can be transformed into actionable insights  
to improve educational outcomes.
".

Definition glossary_intro : string := "
        This page explains each feature used in the model and how it impacts
        the student's academic performance prediction.
        ".

(** *** Page 1: Project Overview (app.py, lines 30-85) *)

Definition project_overview : M unit :=
  emit Main (title "🎓 Student Performance Classification");;
  img ← Image_open image_path;
  emit Main (image img true);;
  emit Main (markdown "## 📊 Dataset Overview");;
  cols ← st_columns Main 2;
  '(col1, col2) ← unpack2 cols;
  emit col1 (metric "Number of Rows" "≈ 82,000");;
  emit col2 (metric "Number of Features" "31");;
  emit Main (markdown overview_text).

(** *** Page 2: Feature Explanation (lines 91-139) *)

Definition feature_info : list (string * string) :=
  [ ("sleep_hours",
     "Average number of hours the student sleeps per day. Adequate sleep improves focus, memory, and academic performance.");
    ("exercise_frequency",
     "Number of times the student exercises per week. Regular exercise is linked to better mental health and concentration.");
    ("stress_level",
     "Measures the student's stress level on a scale from 1 to 10. Higher stress often negatively impacts academic outcomes.");
    ("screen_time",
     "Total daily screen time in hours. Excessive screen usage may reduce study time and sleep quality.");
    ("study_environment",
     "The environment where the student usually studies (e.g., quiet room, library). A better environment enhances productivity.");
    ("access_to_tutoring",
     "Indicates whether the student has access to additional tutoring or academic support.");
    ("motivation_level",
     "Represents how motivated the student is to study, rated from 1 to 10. Higher motivation usually leads to better performance.");
    ("exam_anxiety_score",
     "Measures anxiety level before exams. High anxiety can reduce exam performance despite good preparation.");
    ("study_efficiency",
     "Represents how effectively the student studies within a given time. Higher values indicate better focus and learning quality.");
    ("screen_time_penalty",
     "Quantifies the negative impact of excessive screen time on academic performance.") ].

Definition df_features : DataFrame :=
  DataFrame_of_items feature_info ["Feature Name"; "Description"].

Definition feature_explanation : M unit :=
  emit Main (title "📘 Feature Description & Input Guide");;
  emit Main (markdown glossary_intro);;
  emit Main (dataframe df_features true).

(** *** Page 3: Prediction (lines 144-247) *)

Definition sleep_hours_slider : WidgetSpec := slider_float 4.0 12.0 7.0 0.1.
Definition exercise_frequency_slider : WidgetSpec := slider_int 0 7 3.
Definition stress_level_slider : WidgetSpec := slider_float 1.0 10.0 5.0 0.1.
Definition screen_time_slider : WidgetSpec := slider_float 0.3 21.0 5.0 0.1.
Definition motivation_level_slider : WidgetSpec := slider_int 1 10 6.
Definition exam_anxiety_score_slider : WidgetSpec := slider_float 5.0 10.0 7.0 0.5.
Definition study_efficiency_input : WidgetSpec := number_input 0.0 5.75 2.0 0.05.
Definition screen_time_penalty_input : WidgetSpec := number_input 0.0 90.0 10.0 1.0.
Definition study_environment_box : WidgetSpec :=
  selectbox ["Quiet Room"; "Library"; "Co-Learning Group"; "Dorm"; "Cafe"].
Definition access_to_tutoring_box : WidgetSpec := selectbox ["Yes"; "No"].

Definition class_mapping : gmap Z string :=
  <[2%Z := "✅ High Performer"]>
    (<[1%Z := "⚠️ Average"]>
      (<[0%Z := "❌ At Risk"]> ∅)).

(** [class_mapping.get(prediction, "Unknown")] *)
Definition prediction_label (prediction : Z) : string :=
  default "Unknown" (class_mapping !! prediction).

Definition input_record (sleep_hours exercise_frequency stress_level screen_time
    study_environment access_to_tutoring motivation_level exam_anxiety_score
    study_efficiency screen_time_penalty : Value) : Dict :=
  [ ("sleep_hours", sleep_hours);
    ("exercise_frequency", exercise_frequency);
    ("stress_level", stress_level);
    ("screen_time", screen_time);
    ("study_environment", study_environment);
    ("access_to_tutoring", access_to_tutoring);
    ("motivation_level", motivation_level);
    ("exam_anxiety_score", exam_anxiety_score);
    ("study_efficiency", study_efficiency);
    ("screen_time_penalty", screen_time_penalty) ].

Definition prediction_page (model : PyObject) : M unit :=
  emit Main (title "🤖 Student Performance Classification");;
  emit Main (markdown "### Enter Student Information");;
  cols ← st_columns Main 2;
  '(col1, col2) ← unpack2 cols;
  sleep_hours ← st_widget col1 "Sleep Hours per Day" sleep_hours_slider;
  exercise_frequency ←
    st_widget col1 "Exercise Frequency (per week)" exercise_frequency_slider;
  stress_level ← st_widget col1 "Stress Level" stress_level_slider;
  screen_time ← st_widget col1 "Daily Screen Time (hours)" screen_time_slider;
  motivation_level ← st_widget col1 "Motivation Level" motivation_level_slider;
  exam_anxiety_score ←
    st_widget col2 "Exam Anxiety Score" exam_anxiety_score_slider;
  study_efficiency ← st_widget col2 "Study Efficiency" study_efficiency_input;
  screen_time_penalty ←
    st_widget col2 "Screen Time Penalty" screen_time_penalty_input;
  study_environment ← st_widget col2 "Study Environment" study_environment_box;
  access_to_tutoring ←
    st_widget col2 "Access to Tutoring" access_to_tutoring_box;
  clicked ← st_widget Main "🎯 Predict Performance" button;
  if truthy clicked then
    let input_data := DataFrame_of_records
      [input_record sleep_hours exercise_frequency stress_level screen_time
         study_environment access_to_tutoring motivation_level
         exam_anxiety_score study_efficiency screen_time_penalty] in
    predictions ← model_predict model input_data;
    prediction ← item0 predictions;
    emit Main (success ("📊 Predicted Performance Level: **"
                        +:+ prediction_label prediction +:+ "**"))
  else mret tt.

(** *** The whole script, top to bottom: the model load (line 9), the
    page configuration (lines 14-17), the navigation radio (lines 22-25) and
    the [if]/[elif] chain over the three page names, which has no [else]. *)

Definition app : M unit :=
  model ← joblib_load model_path;
  emit Main (page_config "Student Performance Classification" "wide");;
  page ← st_widget Sidebar "Navigation" (radio pages);
  if str_eq page "Project Overview" then project_overview
  else if str_eq page "Feature Explanation" then feature_explanation
  else if str_eq page "Prediction" then prediction_page model
  else mret tt.

(** ** Render cycles and sessions *)

(** One render cycle: the script run against the session's widget state. *)
Definition run (files : FileSystem) (s : Store) : RunState * (Exn + unit) :=
  app {| fs := files; session := s |} {| widgets := ∅; out := []; log := [] |}.


(** The widget state from which the latest render cycle of a session runs:
    a new session holds no widget state; each event is applied to the
    widgets the previous run has left on the page. *)
Fixpoint replay (files : FileSystem) (s : Store) (evs : list Event) : Store :=
  match evs with
  | [] => s
  | ev :: evs' => replay files (apply_event (widgets (fst (run files s))) ev) evs'
  end.

Definition session_input (files : FileSystem) (evs : list Event) : Store :=
  replay files ∅ evs.

(** The latest render cycle of a session that has received [evs]. *)
Definition last_cycle (files : FileSystem) (evs : list Event)
    : RunState * (Exn + unit) :=
  run files (session_input files evs).

(** All render cycles of that session, oldest first. *)
Fixpoint cycles (files : FileSystem) (s : Store) (evs : list Event)
    : list (RunState * (Exn + unit)) :=
  run files s ::
  match evs with
  | [] => []
  | ev :: evs' => cycles files (apply_event (widgets (fst (run files s))) ev) evs'
  end.

Definition session_cycles (files : FileSystem) (evs : list Event)
    : list (RunState * (Exn + unit)) :=
  cycles files ∅ evs.

Definition loads (l : list Effect) : list string :=
  omap (λ e, match e with JoblibLoad p => Some p | _ => None end) l.

Definition predictions (l : list Effect) : list DataFrame :=
  omap (λ e, match e with ModelPredict d => Some d | _ => None end) l.

(** ** Vocabulary for the statements *)

Definition predict_button : string := "🎯 Predict Performance".

(** The object the script holds after line 9, if the load succeeds. *)
Definition loaded_model (files : FileSystem) : option PyObject :=
  files model_path ≫= unpickle.

(** The page the navigation radio selects in a run from widget state [s]. *)
Definition current_page (s : Store) : Value :=
  widget_value s "Navigation" (radio pages).

(** Whether the submit button reads [True] in a run from widget state [s]. *)
Definition submitted (s : Store) : bool :=
  truthy (widget_value s predict_button button).

(** Whether [ev] is a click on the submit button of a page that shows
    the widgets [s]. *)
Definition clicks_predict (s : Store) (ev : Event) : bool :=
  bool_decide (is_Some (s !! predict_button))
  && String.eqb (target ev) predict_button
  && match action ev with Click => true | _ => false end.

(** The record and the frame the Prediction page assembles in a run from
    widget state [s]: each attribute is what its widget call returns. *)
Definition control_values (s : Store) : Dict :=
  input_record
    (widget_value s "Sleep Hours per Day" sleep_hours_slider)
    (widget_value s "Exercise Frequency (per week)" exercise_frequency_slider)
    (widget_value s "Stress Level" stress_level_slider)
    (widget_value s "Daily Screen Time (hours)" screen_time_slider)
    (widget_value s "Study Environment" study_environment_box)
    (widget_value s "Access to Tutoring" access_to_tutoring_box)
    (widget_value s "Motivation Level" motivation_level_slider)
    (widget_value s "Exam Anxiety Score" exam_anxiety_score_slider)
    (widget_value s "Study Efficiency" study_efficiency_input)
    (widget_value s "Screen Time Penalty" screen_time_penalty_input).

Definition input_frame (s : Store) : DataFrame :=
  DataFrame_of_records [control_values s].

(** The ten input controls of the Prediction page, in the order the script
    calls them: label and parameters. *)
Definition controls : list (string * WidgetSpec) :=
  [ ("Sleep Hours per Day", sleep_hours_slider);
    ("Exercise Frequency (per week)", exercise_frequency_slider);
    ("Stress Level", stress_level_slider);
    ("Daily Screen Time (hours)", screen_time_slider);
    ("Motivation Level", motivation_level_slider);
    ("Exam Anxiety Score", exam_anxiety_score_slider);
    ("Study Efficiency", study_efficiency_input);
    ("Screen Time Penalty", screen_time_penalty_input);
    ("Study Environment", study_environment_box);
    ("Access to Tutoring", access_to_tutoring_box) ].

(** Widgets a run leaves on the page when it reaches the page dispatch. *)
Definition navigation_store (page : Value) : Store :=
  <["Navigation" := (radio pages, page)]> ∅.

Definition prediction_store (s : Store) : Store :=
  <[predict_button := (button, VBool false)]>
    (foldl (λ acc c, <[fst c := (snd c, widget_value s (fst c) (snd c))]> acc)
       (navigation_store (VStr "Prediction")) controls).

(** Elements every run renders before the page dispatch. *)
Definition header (page : Value) : list (Container * Element) :=
  [ (Main, page_config "Student Performance Classification" "wide");
    (Sidebar, widget "Navigation" (radio pages) page) ].

(** The script with its page dispatch replaced by one page body. *)
Definition app_showing (view : PyObject → M unit) : M unit :=
  model ← joblib_load model_path;
  emit Main (page_config "Student Performance Classification" "wide");;
  page ← st_widget Sidebar "Navigation" (radio pages);
  view model.

Definition run_showing (view : PyObject → M unit)
    (files : FileSystem) (s : Store) : RunState * (Exn + unit) :=
  app_showing view {| fs := files; session := s |}
    {| widgets := ∅; out := []; log := [] |}.

(** *** Legal widget values *)

(** A value a widget of these parameters can hold: a slider position on
    its grid, a number within the bounds of a number input, one of the
    options of a select box or radio group. *)
Definition valid (spec : WidgetSpec) (v : Value) : Prop :=
  match spec with
  | slider_float mn mx _ st =>
      ∃ q k, v = VFloat q ∧ (0 ≤ k ≤ slider_steps mn mx st)%Z
             ∧ (q == mn + inject_Z k * st)%Q
  | slider_int mn mx _ => ∃ z, v = VInt z ∧ (mn ≤ z ≤ mx)%Z
  | number_input mn mx _ _ => ∃ q, v = VFloat q ∧ (mn <= q <= mx)%Q
  | selectbox opts | radio opts => ∃ o, v = VStr o ∧ o ∈ opts
  | button => ∃ b, v = VBool b
  end.

Definition store_ok (s : Store) : Prop :=
  ∀ label spec v, s !! label = Some (spec, v) → valid spec v.

(** *** The declared domains of the ten attributes *)

Inductive Domain : Type :=
| continuous (lo hi : Q)
| stepped (lo hi step : Q)
| integer (lo hi : Z)
| categorical (options : list string).

Definition in_domain (d : Domain) (v : Value) : Prop :=
  match d with
  | continuous lo hi => ∃ q, v = VFloat q ∧ (lo <= q <= hi)%Q
  | stepped lo hi step =>
      ∃ q, v = VFloat q ∧ (lo <= q <= hi)%Q
           ∧ ∃ k : Z, (q == lo + inject_Z k * step)%Q
  | integer lo hi => ∃ z, v = VInt z ∧ (lo ≤ z ≤ hi)%Z
  | categorical opts => ∃ o, v = VStr o ∧ o ∈ opts
  end.

Definition declared_domains : list (string * Domain) :=
  [ ("sleep_hours", continuous 4.0 12.0);
    ("exercise_frequency", integer 0 7);
    ("stress_level", continuous 1.0 10.0);
    ("screen_time", continuous 0.3 21.0);
    ("study_environment",
     categorical ["Quiet Room"; "Library"; "Co-Learning Group"; "Dorm"; "Cafe"]);
    ("access_to_tutoring", categorical ["Yes"; "No"]);
    ("motivation_level", integer 1 10);
    ("exam_anxiety_score", stepped 5.0 10.0 0.5);
    ("study_efficiency", continuous 0.0 5.75);
    ("screen_time_penalty", continuous 0.0 90.0) ].

(** A record is in domain when it has the ten attributes, in the table's
    order, each with a value of its declared domain. *)
Definition record_in_domain (d : Dict) : Prop :=
  Forall2 (λ kv ad, fst kv = fst ad ∧ in_domain (snd ad) (snd kv))
    d declared_domains.

(** *** Concrete file systems and events for the examples *)

Definition constant_model (z : Z) : DataFrame → Exn + list Z := λ _, inr [z].

Definition files_ok : FileSystem := λ p,
  if String.eqb p model_path then Some (Pickle (constant_model 1))
  else if String.eqb p image_path then Some Jpeg
  else None.

Definition files_no_image : FileSystem := λ p,
  if String.eqb p model_path then Some (Pickle (constant_model 1)) else None.

Definition navigate (i : nat) : Event := mkEvent "Navigation" (Pick i).
Definition submit : Event := mkEvent predict_button Click.
Definition set_sleep_hours (k : nat) : Event :=
  mkEvent "Sleep Hours per Day" (Pick k).

(** The widget state of a session that opens the Prediction page and
    clicks the button, as the run caused by the click finds it. *)
Definition after_submit : Store := session_input files_ok [navigate 2; submit].

(** *** Further vocabulary and inputs for the examples *)

(** The page titles among the elements a run has rendered. *)
Definition titles (o : list (Container * Element)) : list string :=
  omap (λ ce, match snd ce with title body => Some body | _ => None end) o.

(** A file system without the model file. *)
Definition files_no_model : FileSystem := λ _, None.

(** A file system whose model file is a pickle of an object that is no
    model, and the widget state of a session on it that opens the
    Prediction page and clicks the button. *)
Definition files_other_pickle : FileSystem := λ p,
  if String.eqb p model_path then Some PickleOther
  else if String.eqb p image_path then Some Jpeg
  else None.

Definition after_submit_other_pickle : Store :=
  session_input files_other_pickle [navigate 2; submit].

(** The result messages among the elements a run has rendered. *)
Definition results (o : list (Container * Element)) : list string :=
  omap (λ ce, match snd ce with success body => Some body | _ => None end) o.

(** The message line 247 builds for a predicted class. *)
Definition result_message (prediction : Z) : string :=
  "📊 Predicted Performance Level: **" +:+ prediction_label prediction +:+ "**".

(** A model that returns no label, and a file system that holds it. *)
Definition empty_model : DataFrame → Exn + list Z := λ _, inr [].

Definition files_empty_model : FileSystem := λ p,
  if String.eqb p model_path then Some (Pickle empty_model)
  else if String.eqb p image_path then Some Jpeg
  else None.

(** The widget state of a session that sets the sleep hours on the
    Prediction page and goes back to the Overview page. *)
Definition back_on_overview : Store :=
  session_input files_ok [navigate 2; set_sleep_hours 50; navigate 0].

(** * Proofs *)

(** ** Running the script symbolically *)

Ltac run_script :=
  cbv beta iota zeta delta
    [run run_showing app app_showing mbind M_bind mret M_ret perform emit
     st_widget raise open_file joblib_load Image_open st_columns unpack2
     model_predict item0 fs session widgets out log project_overview
     feature_explanation prediction_page fmap list_fmap seq Datatypes.app
     fst snd str_eq String.eqb Ascii.eqb Bool.eqb settle].

Lemma run_model_missing files s :
  files model_path = None →
  run files s =
    ({| widgets := ∅; out := []; log := [JoblibLoad model_path] |},
     inl (FileNotFoundError model_path)).
Proof. intros Hm. run_script. rewrite Hm. reflexivity. Qed.

Lemma run_model_unreadable files s f :
  files model_path = Some f → unpickle f = None →
  run files s =
    ({| widgets := ∅; out := []; log := [JoblibLoad model_path] |},
     inl (UnreadableFile model_path)).
Proof. intros Hm Hf. run_script. rewrite Hm. run_script. by rewrite Hf. Qed.

(** The exception of a load that fails. *)
Lemma run_not_loaded files s :
  loaded_model files = None →
  run files s =
    ({| widgets := ∅; out := []; log := [JoblibLoad model_path] |},
     inl match files model_path with
         | Some _ => UnreadableFile model_path
         | None => FileNotFoundError model_path
         end).
Proof.
  unfold loaded_model. destruct (files model_path) as [f|] eqn:Hm; simpl.
  - intros Hu. by apply (run_model_unreadable files s f).
  - intros _. by apply run_model_missing.
Qed.

(** *** Runs with any loaded object *)

Lemma loaded_model_file files model :
  loaded_model files = Some model →
  ∃ f, files model_path = Some f ∧ unpickle f = Some model.
Proof.
  unfold loaded_model. destruct (files model_path) as [f|]; [|discriminate].
  simpl. by exists f.
Qed.

Lemma run_overview_loaded files s model :
  loaded_model files = Some model →
  current_page s = VStr "Project Overview" →
  run files s =
    let st := {| widgets := navigation_store (VStr "Project Overview");
                 out := header (VStr "Project Overview")
                        ++ [(Main, title "🎓 Student Performance Classification")];
                 log := [JoblibLoad model_path; ImageOpen image_path] |} in
    match files image_path with
    | Some Jpeg =>
        ({| widgets := widgets st;
            out := out st ++
              [ (Main, image image_path true);
                (Main, markdown "## 📊 Dataset Overview");
                (Main, columns_block 2);
                (Column 0, metric "Number of Rows" "≈ 82,000");
                (Column 1, metric "Number of Features" "31");
                (Main, markdown overview_text) ];
            log := log st |}, inr tt)
    | Some _ => (st, inl (UnreadableFile image_path))
    | None => (st, inl (FileNotFoundError image_path))
    end.
Proof.
  unfold current_page. intros (f & Hm & Hu)%loaded_model_file Hp.
  run_script. rewrite Hm. run_script. rewrite Hu. run_script.
  rewrite Hp. run_script.
  destruct (files image_path) as [[]|]; reflexivity.
Qed.

Lemma run_feature_explanation_loaded files s model :
  loaded_model files = Some model →
  current_page s = VStr "Feature Explanation" →
  run files s =
    ({| widgets := navigation_store (VStr "Feature Explanation");
        out := header (VStr "Feature Explanation") ++
          [ (Main, title "📘 Feature Description & Input Guide");
            (Main, markdown glossary_intro);
            (Main, dataframe df_features true) ];
        log := [JoblibLoad model_path] |}, inr tt).
Proof.
  unfold current_page. intros (f & Hm & Hu)%loaded_model_file Hp.
  run_script. rewrite Hm. run_script. rewrite Hu. run_script.
  rewrite Hp. run_script. reflexivity.
Qed.

(** The form the Prediction page renders before it looks at the button,
    and what the submission then does with the loaded object. *)
Lemma run_prediction_loaded files s model :
  loaded_model files = Some model →
  current_page s = VStr "Prediction" →
  run files s =
    let form := header (VStr "Prediction") ++
      [ (Main, title "🤖 Student Performance Classification");
        (Main, markdown "### Enter Student Information");
        (Main, columns_block 2) ] ++
      ((λ c, (Column 0, widget (fst c) (snd c) (widget_value s (fst c) (snd c))))
         <$> take 5 controls) ++
      ((λ c, (Column 1, widget (fst c) (snd c) (widget_value s (fst c) (snd c))))
         <$> drop 5 controls) ++
      [ (Main, widget predict_button button (widget_value s predict_button button)) ] in
    if submitted s then
      match model with
      | Classifier predict =>
          match predict (input_frame s) with
          | inr (prediction :: _) =>
              ({| widgets := prediction_store s;
                  out := form ++
                    [ (Main, success ("📊 Predicted Performance Level: **"
                                      +:+ prediction_label prediction +:+ "**")) ];
                  log := [JoblibLoad model_path; ModelPredict (input_frame s)] |},
               inr tt)
          | inr [] =>
              ({| widgets := prediction_store s;
                  out := form;
                  log := [JoblibLoad model_path; ModelPredict (input_frame s)] |},
               inl IndexError)
          | inl e =>
              ({| widgets := prediction_store s;
                  out := form;
                  log := [JoblibLoad model_path; ModelPredict (input_frame s)] |},
               inl e)
          end
      | Object =>
          ({| widgets := prediction_store s; out := form;
              log := [JoblibLoad model_path] |}, inl AttributeError)
      end
    else
      ({| widgets := prediction_store s; out := form;
          log := [JoblibLoad model_path] |}, inr tt).
Proof.
  unfold current_page. intros (f & Hm & Hu)%loaded_model_file Hp.
  run_script. rewrite Hm. run_script. rewrite Hu. run_script.
  rewrite Hp. run_script.
  unfold submitted, input_frame, control_values, predict_button.
  destruct (truthy _); [|reflexivity].
  destruct model as [predict|]; [|reflexivity]. run_script.
  destruct (predict _) as [e|[|prediction rest]]; reflexivity.
Qed.

(** A run that selects none of the three page names renders no page. *)
Lemma run_no_page_loaded files s model :
  loaded_model files = Some model →
  str_eq (current_page s) "Project Overview" = false →
  str_eq (current_page s) "Feature Explanation" = false →
  str_eq (current_page s) "Prediction" = false →
  run files s =
    ({| widgets := navigation_store (current_page s);
        out := header (current_page s);
        log := [JoblibLoad model_path] |}, inr tt).
Proof.
  unfold current_page. intros (f & Hm & Hu)%loaded_model_file H1 H2 H3.
  cbv beta iota zeta delta
    [run app mbind M_bind mret M_ret perform emit st_widget open_file
     joblib_load fs session widgets out log Datatypes.app settle].
  rewrite Hm.
  cbv beta iota zeta delta
    [run app mbind M_bind mret M_ret perform emit st_widget open_file
     joblib_load fs session widgets out log Datatypes.app settle].
  rewrite Hu.
  cbv beta iota zeta delta
    [run app mbind M_bind mret M_ret perform emit st_widget open_file
     joblib_load fs session widgets out log Datatypes.app settle].
  rewrite H1, H2, H3. reflexivity.
Qed.

(** *** Runs with a loaded classifier *)

Lemma classifier_loaded files m :
  files model_path = Some (Pickle m) → loaded_model files = Some (Classifier m).
Proof. intros Hm. unfold loaded_model. by rewrite Hm. Qed.

Lemma run_overview files s m :
  files model_path = Some (Pickle m) →
  current_page s = VStr "Project Overview" →
  run files s =
    let st := {| widgets := navigation_store (VStr "Project Overview");
                 out := header (VStr "Project Overview")
                        ++ [(Main, title "🎓 Student Performance Classification")];
                 log := [JoblibLoad model_path; ImageOpen image_path] |} in
    match files image_path with
    | Some Jpeg =>
        ({| widgets := widgets st;
            out := out st ++
              [ (Main, image image_path true);
                (Main, markdown "## 📊 Dataset Overview");
                (Main, columns_block 2);
                (Column 0, metric "Number of Rows" "≈ 82,000");
                (Column 1, metric "Number of Features" "31");
                (Main, markdown overview_text) ];
            log := log st |}, inr tt)
    | Some _ => (st, inl (UnreadableFile image_path))
    | None => (st, inl (FileNotFoundError image_path))
    end.
Proof. intros Hm. by eapply run_overview_loaded, classifier_loaded. Qed.

Lemma run_feature_explanation files s m :
  files model_path = Some (Pickle m) →
  current_page s = VStr "Feature Explanation" →
  run files s =
    ({| widgets := navigation_store (VStr "Feature Explanation");
        out := header (VStr "Feature Explanation") ++
          [ (Main, title "📘 Feature Description & Input Guide");
            (Main, markdown glossary_intro);
            (Main, dataframe df_features true) ];
        log := [JoblibLoad model_path] |}, inr tt).
Proof. intros Hm. by eapply run_feature_explanation_loaded, classifier_loaded. Qed.

Lemma run_prediction files s m :
  files model_path = Some (Pickle m) →
  current_page s = VStr "Prediction" →
  run files s =
    let form := header (VStr "Prediction") ++
      [ (Main, title "🤖 Student Performance Classification");
        (Main, markdown "### Enter Student Information");
        (Main, columns_block 2) ] ++
      ((λ c, (Column 0, widget (fst c) (snd c) (widget_value s (fst c) (snd c))))
         <$> take 5 controls) ++
      ((λ c, (Column 1, widget (fst c) (snd c) (widget_value s (fst c) (snd c))))
         <$> drop 5 controls) ++
      [ (Main, widget predict_button button (widget_value s predict_button button)) ] in
    if submitted s then
      match m (input_frame s) with
      | inr (prediction :: _) =>
          ({| widgets := prediction_store s;
              out := form ++
                [ (Main, success ("📊 Predicted Performance Level: **"
                                  +:+ prediction_label prediction +:+ "**")) ];
              log := [JoblibLoad model_path; ModelPredict (input_frame s)] |},
           inr tt)
      | inr [] =>
          ({| widgets := prediction_store s;
              out := form;
              log := [JoblibLoad model_path; ModelPredict (input_frame s)] |},
           inl IndexError)
      | inl e =>
          ({| widgets := prediction_store s;
              out := form;
              log := [JoblibLoad model_path; ModelPredict (input_frame s)] |},
           inl e)
      end
    else
      ({| widgets := prediction_store s; out := form;
          log := [JoblibLoad model_path] |}, inr tt).
Proof.
  intros Hm Hp.
  by rewrite (run_prediction_loaded files s _ (classifier_loaded _ _ Hm) Hp).
Qed.

Lemma run_no_page files s m :
  files model_path = Some (Pickle m) →
  str_eq (current_page s) "Project Overview" = false →
  str_eq (current_page s) "Feature Explanation" = false →
  str_eq (current_page s) "Prediction" = false →
  run files s =
    ({| widgets := navigation_store (current_page s);
        out := header (current_page s);
        log := [JoblibLoad model_path] |}, inr tt).
Proof. intros Hm. by eapply run_no_page_loaded, classifier_loaded. Qed.

(** ** Legal widget values are an invariant of a session *)

Lemma react_valid spec a v : react spec a = Some v → valid spec v.
Proof.
  destruct spec as [mn mx d st|mn mx d|mn mx d st|opts|opts|], a as [k|q|];
    simpl; try discriminate.
  - destruct (Z.leb_spec (Z.of_nat k) (slider_steps mn mx st)); [|discriminate].
    intros [= <-]. exists (Qred (mn + inject_Z (Z.of_nat k) * st)), (Z.of_nat k).
    split; [reflexivity|]. split; [lia|]. apply Qred_correct.
  - destruct (Z.leb_spec (mn + Z.of_nat k) mx); [|discriminate].
    intros [= <-]. exists (mn + Z.of_nat k)%Z. split; [reflexivity|lia].
  - destruct (Qle_bool mn q) eqn:H1; [|discriminate].
    destruct (Qle_bool q mx) eqn:H2; [|discriminate].
    intros [= <-]. exists q. split; [reflexivity|].
    split; by apply Qle_bool_iff.
  - destruct (opts !! k) as [o|] eqn:Ho; [|discriminate].
    intros [= <-]. exists o. split; [reflexivity|]. by eapply list_elem_of_lookup_2.
  - destruct (opts !! k) as [o|] eqn:Ho; [|discriminate].
    intros [= <-]. exists o. split; [reflexivity|]. by eapply list_elem_of_lookup_2.
  - intros [= <-]. by exists true.
Qed.

Lemma settle_valid spec v : valid spec v → valid spec (settle spec v).
Proof. destruct spec; simpl; try done. intros _. by exists false. Qed.

Lemma store_ok_empty : store_ok ∅.
Proof. intros label spec v H. by rewrite lookup_empty in H. Qed.

Lemma store_ok_insert s label spec v :
  valid spec v → store_ok s → store_ok (<[label := (spec, v)]> s).
Proof.
  intros Hv Hs l sp w. rewrite lookup_insert. case_decide.
  - by intros [= <- <-].
  - apply Hs.
Qed.

Lemma apply_event_ok s ev : store_ok s → store_ok (apply_event s ev).
Proof.
  intros Hs. unfold apply_event.
  destruct (s !! target ev) as [[spec w]|] eqn:Hl; [|done].
  destruct (react spec (action ev)) as [v|] eqn:Hr; [|done].
  apply store_ok_insert; [|done]. by eapply react_valid.
Qed.

Lemma widget_value_valid s label spec :
  store_ok s → valid spec (default_value spec) →
  valid spec (widget_value s label spec).
Proof.
  intros Hs Hd. unfold widget_value.
  destruct (s !! label) as [[spec' v]|] eqn:Hl; [|done].
  case_decide as Heq; [|done]. subst spec'. by eapply Hs.
Qed.

(** The defaults the script declares are legal values of their widgets. *)
Lemma slider_default mn mx d st (k : Z) :
  (0 ≤ k ≤ slider_steps mn mx st)%Z → (d == mn + inject_Z k * st)%Q →
  valid (slider_float mn mx d st) (default_value (slider_float mn mx d st)).
Proof. intros Hk Hd. by exists d, k. Qed.

Lemma controls_default :
  Forall (λ c, valid (snd c) (default_value (snd c))) controls.
Proof.
  repeat apply Forall_cons_2; try apply Forall_nil_2.
  - by apply (slider_default _ _ _ _ 30).
  - exists 3%Z. split; [reflexivity|lia].
  - by apply (slider_default _ _ _ _ 40).
  - by apply (slider_default _ _ _ _ 47).
  - exists 6%Z. split; [reflexivity|lia].
  - by apply (slider_default _ _ _ _ 4).
  - exists 2.0%Q. split; [reflexivity|]. split; by apply Qle_bool_iff.
  - exists 10.0%Q. split; [reflexivity|]. split; by apply Qle_bool_iff.
  - exists "Quiet Room". split; [reflexivity|]. by left.
  - exists "Yes". split; [reflexivity|]. by left.
Qed.

Lemma navigation_default : valid (radio pages) (default_value (radio pages)).
Proof. exists "Project Overview". split; [reflexivity|]. by left. Qed.

Lemma current_page_valid s : store_ok s → valid (radio pages) (current_page s).
Proof. intros Hs. apply widget_value_valid; [done|apply navigation_default]. Qed.

Lemma current_page_cases s :
  store_ok s →
  current_page s = VStr "Project Overview"
  ∨ current_page s = VStr "Feature Explanation"
  ∨ current_page s = VStr "Prediction".
Proof.
  intros Hs. destruct (current_page_valid s Hs) as (o & -> & Ho).
  unfold pages in Ho. repeat (apply elem_of_cons in Ho as [->|Ho]; [tauto|]).
  by apply elem_of_nil in Ho.
Qed.

Lemma control_value_valid s c :
  store_ok s → c ∈ controls → valid (snd c) (widget_value s (fst c) (snd c)).
Proof.
  intros Hs Hc. apply widget_value_valid; [done|].
  by apply (proj1 (Forall_forall _ _) controls_default).
Qed.

Lemma navigation_store_ok page : valid (radio pages) page → store_ok (navigation_store page).
Proof. intros Hp. apply store_ok_insert; [done|apply store_ok_empty]. Qed.

Lemma prediction_store_ok s : store_ok s → store_ok (prediction_store s).
Proof.
  intros Hs. unfold prediction_store.
  apply store_ok_insert; [by exists false|].
  assert (Hn : store_ok (navigation_store (VStr "Prediction"))).
  { apply navigation_store_ok. exists "Prediction". split; [done|].
    unfold pages. do 2 right. by left. }
  assert (Hc : Forall (λ c, c ∈ controls) controls) by (by apply Forall_forall).
  revert Hn Hc. generalize (navigation_store (VStr "Prediction")).
  generalize controls at 2 3. intros cs. induction cs as [|c cs IH]; intros acc Hacc Hcs.
  - done.
  - simpl. apply Forall_cons in Hcs as [Hc Hcs]. apply IH; [|done].
    apply store_ok_insert; [|done]. by apply control_value_valid.
Qed.

(** What a run leaves on the page, by cases on the model file and the
    selected page. *)
Lemma run_widgets files s :
  store_ok s →
  widgets (fst (run files s)) =
    match loaded_model files with
    | Some _ =>
        if str_eq (current_page s) "Prediction" then prediction_store s
        else navigation_store (current_page s)
    | None => ∅
    end.
Proof.
  intros Hs. destruct (loaded_model files) as [model|] eqn:Hl.
  - destruct (current_page_cases s Hs) as [Hp|[Hp|Hp]]; rewrite Hp.
    + rewrite (run_overview_loaded files s model Hl Hp). simpl.
      by destruct (files image_path) as [[]|].
    + by rewrite (run_feature_explanation_loaded files s model Hl Hp).
    + rewrite (run_prediction_loaded files s model Hl Hp). simpl.
      destruct (submitted s); [|done].
      destruct model as [predict|]; [|done].
      by destruct (predict _) as [e|[|prediction rest]].
  - by rewrite (run_not_loaded files s Hl).
Qed.

Lemma run_store_ok files s : store_ok s → store_ok (widgets (fst (run files s))).
Proof.
  intros Hs. rewrite run_widgets by done.
  destruct (loaded_model files) as [model|]; [|apply store_ok_empty].
  destruct (str_eq _ _).
  - by apply prediction_store_ok.
  - apply navigation_store_ok. by apply current_page_valid.
Qed.

Lemma replay_ok files s evs : store_ok s → store_ok (replay files s evs).
Proof.
  revert s. induction evs as [|ev evs IH]; intros s Hs; simpl; [done|].
  apply IH. apply apply_event_ok. by apply run_store_ok.
Qed.

Lemma session_input_ok files evs : store_ok (session_input files evs).
Proof. apply replay_ok, store_ok_empty. Qed.

Lemma replay_snoc files s evs ev :
  replay files s (evs ++ [ev]) =
  apply_event (widgets (fst (run files (replay files s evs)))) ev.
Proof. revert s. induction evs as [|e evs IH]; intros s; simpl; [done|apply IH]. Qed.

Lemma session_input_snoc files evs ev :
  session_input files (evs ++ [ev]) =
  apply_event (widgets (fst (last_cycle files evs))) ev.
Proof. apply replay_snoc. Qed.

Lemma cycles_length files s evs : length (cycles files s evs) = S (length evs).
Proof.
  revert s. induction evs as [|ev evs IH]; intros s; simpl; [done|].
  by rewrite IH.
Qed.

Lemma cycles_last files s evs :
  last (cycles files s evs) = Some (run files (replay files s evs)).
Proof.
  revert s. induction evs as [|ev evs IH]; intros s; [done|].
  simpl replay. rewrite <- IH. simpl.
  by destruct (cycles files _ evs) eqn:E; [destruct evs; discriminate|].
Qed.

(** ** The class-to-label mapping *)

(** C1, as stated, fails: the label the mapping gives class 0 is not the
    bare text "At Risk"; every entry of the mapping starts with an icon. *)
Lemma label_of_class_0_has_icon : prediction_label 0 ≠ "At Risk".
Proof. discriminate. Qed.

(** C1, amended: [class_mapping.get(prediction, "Unknown")] is total; it
    maps 0 to "❌ At Risk", 1 to "⚠️ Average", 2 to "✅ High Performer" and
    every other integer to "Unknown". *)
Theorem prediction_label_total (prediction : Z) :
  prediction_label prediction =
    if (prediction =? 0)%Z then "❌ At Risk"
    else if (prediction =? 1)%Z then "⚠️ Average"
    else if (prediction =? 2)%Z then "✅ High Performer"
    else "Unknown".
Proof.
  unfold prediction_label, class_mapping.
  destruct (Z.eqb_spec prediction 0) as [->|H0]; [reflexivity|].
  destruct (Z.eqb_spec prediction 1) as [->|H1]; [reflexivity|].
  destruct (Z.eqb_spec prediction 2) as [->|H2]; [reflexivity|].
  rewrite !lookup_insert_ne by done. by rewrite lookup_empty.
Qed.

(** ** The Overview page and its image *)

(** C2, as stated, fails: with the image file absent, the run of the
    Overview page ends in the uncaught [FileNotFoundError] of [Image.open],
    and only the title of the page has been rendered: no metric, no text. *)
Lemma overview_stops_at_missing_image :
  snd (run files_no_image ∅) = inl (FileNotFoundError image_path)
  ∧ snd <$> out (fst (run files_no_image ∅)) =
      [ page_config "Student Performance Classification" "wide";
        widget "Navigation" (radio pages) (VStr "Project Overview");
        title "🎓 Student Performance Classification" ].
Proof. split; reflexivity. Qed.

(** C2, amended: when the image file is absent, a run that selects the
    Overview page raises [FileNotFoundError] at [Image.open], after the
    title and before the image, the metrics and the text. *)
Theorem overview_aborts_without_image files s m :
  files model_path = Some (Pickle m) →
  files image_path = None →
  current_page s = VStr "Project Overview" →
  run files s =
    ({| widgets := navigation_store (VStr "Project Overview");
        out := header (VStr "Project Overview")
               ++ [(Main, title "🎓 Student Performance Classification")];
        log := [JoblibLoad model_path; ImageOpen image_path] |},
     inl (FileNotFoundError image_path)).
Proof.
  intros Hm Hi Hp. rewrite (run_overview files s m Hm Hp). simpl.
  by rewrite Hi.
Qed.

Lemma overview_aborts_without_image_witness :
  run files_no_image ∅ =
    ({| widgets := navigation_store (VStr "Project Overview");
        out := header (VStr "Project Overview")
               ++ [(Main, title "🎓 Student Performance Classification")];
        log := [JoblibLoad model_path; ImageOpen image_path] |},
     inl (FileNotFoundError image_path)).
Proof.
  apply (overview_aborts_without_image files_no_image ∅ (constant_model 1));
    reflexivity.
Defined.

(** ** The Glossary page *)

(** C8: a run that selects the Feature Explanation page renders, whatever
    the widget state of the session, the same elements, the last of which
    is a table of two columns (feature name, description) and ten rows, one
    per feature name, in the order of [feature_info]. *)
Theorem glossary_renders_ten_rows files s m :
  files model_path = Some (Pickle m) →
  current_page s = VStr "Feature Explanation" →
  snd (run files s) = inr tt
  ∧ out (fst (run files s)) =
      header (VStr "Feature Explanation") ++
      [ (Main, title "📘 Feature Description & Input Guide");
        (Main, markdown glossary_intro);
        (Main, dataframe df_features true) ]
  ∧ columns df_features = ["Feature Name"; "Description"]
  ∧ length (rows df_features) = 10
  ∧ rows df_features =
      (λ kv, [Some (VStr (fst kv)); Some (VStr (snd kv))]) <$> feature_info
  ∧ fst <$> feature_info =
      [ "sleep_hours"; "exercise_frequency"; "stress_level"; "screen_time";
        "study_environment"; "access_to_tutoring"; "motivation_level";
        "exam_anxiety_score"; "study_efficiency"; "screen_time_penalty" ].
Proof.
  intros Hm Hp. rewrite (run_feature_explanation files s m Hm Hp).
  repeat split; reflexivity.
Qed.

Lemma glossary_renders_ten_rows_witness :
  snd (run files_ok (session_input files_ok [navigate 1])) = inr tt
  ∧ out (fst (run files_ok (session_input files_ok [navigate 1]))) =
      header (VStr "Feature Explanation") ++
      [ (Main, title "📘 Feature Description & Input Guide");
        (Main, markdown glossary_intro);
        (Main, dataframe df_features true) ]
  ∧ columns df_features = ["Feature Name"; "Description"]
  ∧ length (rows df_features) = 10
  ∧ rows df_features =
      (λ kv, [Some (VStr (fst kv)); Some (VStr (snd kv))]) <$> feature_info
  ∧ fst <$> feature_info =
      [ "sleep_hours"; "exercise_frequency"; "stress_level"; "screen_time";
        "study_environment"; "access_to_tutoring"; "motivation_level";
        "exam_anxiety_score"; "study_efficiency"; "screen_time_penalty" ].
Proof.
  apply (glossary_renders_ten_rows files_ok _ (constant_model 1));
    reflexivity.
Defined.

(** ** Submitting the Prediction page *)

(** C6: a run of the Prediction page in which the button reads [True]
    calls the model exactly once, on a frame of one row whose columns are
    the ten attribute names and whose cells are the values the ten widget
    calls of this run have returned. *)
Theorem submit_assembles_record files s m :
  files model_path = Some (Pickle m) →
  current_page s = VStr "Prediction" →
  submitted s = true →
  predictions (log (fst (run files s))) = [input_frame s]
  ∧ columns (input_frame s) =
      [ "sleep_hours"; "exercise_frequency"; "stress_level"; "screen_time";
        "study_environment"; "access_to_tutoring"; "motivation_level";
        "exam_anxiety_score"; "study_efficiency"; "screen_time_penalty" ]
  ∧ rows (input_frame s) =
      [ [ Some (widget_value s "Sleep Hours per Day" sleep_hours_slider);
          Some (widget_value s "Exercise Frequency (per week)"
                  exercise_frequency_slider);
          Some (widget_value s "Stress Level" stress_level_slider);
          Some (widget_value s "Daily Screen Time (hours)" screen_time_slider);
          Some (widget_value s "Study Environment" study_environment_box);
          Some (widget_value s "Access to Tutoring" access_to_tutoring_box);
          Some (widget_value s "Motivation Level" motivation_level_slider);
          Some (widget_value s "Exam Anxiety Score" exam_anxiety_score_slider);
          Some (widget_value s "Study Efficiency" study_efficiency_input);
          Some (widget_value s "Screen Time Penalty" screen_time_penalty_input) ] ].
Proof.
  intros Hm Hp Hb. rewrite (run_prediction files s m Hm Hp). simpl.
  rewrite Hb. split; [by destruct (m _) as [e|[|prediction rest]]|].
  split; reflexivity.
Qed.

(** C10: when the model returns at least one label for the one-row frame,
    [model.predict(input_data)[0]] succeeds, the run ends normally, and the
    message rendered is the label of that first element alone. *)
Theorem first_prediction_decides_label files s m prediction rest :
  files model_path = Some (Pickle m) →
  current_page s = VStr "Prediction" →
  submitted s = true →
  m (input_frame s) = inr (prediction :: rest) →
  snd (run files s) = inr tt
  ∧ last (out (fst (run files s))) =
      Some (Main, success ("📊 Predicted Performance Level: **"
                           +:+ prediction_label prediction +:+ "**"))
  ∧ predictions (log (fst (run files s))) = [input_frame s]
  ∧ length (rows (input_frame s)) = 1.
Proof.
  intros Hm Hp Hb Hz. rewrite (run_prediction files s m Hm Hp). simpl.
  rewrite Hb, Hz. repeat split; reflexivity.
Qed.

(** The indexing is unguarded: on an empty result it raises. *)
Lemma empty_prediction_raises files s m :
  files model_path = Some (Pickle m) →
  current_page s = VStr "Prediction" →
  submitted s = true →
  m (input_frame s) = inr [] →
  snd (run files s) = inl IndexError.
Proof.
  intros Hm Hp Hb Hz. rewrite (run_prediction files s m Hm Hp). simpl.
  by rewrite Hb, Hz.
Qed.

Lemma submit_assembles_record_witness :
  predictions (log (fst (run files_ok after_submit))) = [input_frame after_submit]
  ∧ columns (input_frame after_submit) =
      [ "sleep_hours"; "exercise_frequency"; "stress_level"; "screen_time";
        "study_environment"; "access_to_tutoring"; "motivation_level";
        "exam_anxiety_score"; "study_efficiency"; "screen_time_penalty" ]
  ∧ rows (input_frame after_submit) =
      [ [ Some (widget_value after_submit "Sleep Hours per Day" sleep_hours_slider);
          Some (widget_value after_submit "Exercise Frequency (per week)"
                  exercise_frequency_slider);
          Some (widget_value after_submit "Stress Level" stress_level_slider);
          Some (widget_value after_submit "Daily Screen Time (hours)" screen_time_slider);
          Some (widget_value after_submit "Study Environment" study_environment_box);
          Some (widget_value after_submit "Access to Tutoring" access_to_tutoring_box);
          Some (widget_value after_submit "Motivation Level" motivation_level_slider);
          Some (widget_value after_submit "Exam Anxiety Score" exam_anxiety_score_slider);
          Some (widget_value after_submit "Study Efficiency" study_efficiency_input);
          Some (widget_value after_submit "Screen Time Penalty" screen_time_penalty_input) ] ].
Proof.
  apply (submit_assembles_record files_ok after_submit (constant_model 1));
    vm_compute; reflexivity.
Defined.

Lemma first_prediction_decides_label_witness :
  snd (run files_ok after_submit) = inr tt
  ∧ last (out (fst (run files_ok after_submit))) =
      Some (Main, success ("📊 Predicted Performance Level: **"
                           +:+ prediction_label 1 +:+ "**"))
  ∧ predictions (log (fst (run files_ok after_submit))) = [input_frame after_submit]
  ∧ length (rows (input_frame after_submit)) = 1.
Proof.
  apply (first_prediction_decides_label files_ok after_submit
           (constant_model 1) 1 []);
    vm_compute; reflexivity.
Defined.

(** ** Every render cycle is a run from a legal widget state *)

Lemma cycles_Forall files (P : RunState * (Exn + unit) → Prop) s evs :
  (∀ s', store_ok s' → P (run files s')) →
  store_ok s → Forall P (cycles files s evs).
Proof.
  intros HP. revert s. induction evs as [|ev evs IH]; intros s Hs; simpl.
  - apply Forall_cons_2; [by apply HP|apply Forall_nil_2].
  - apply Forall_cons_2; [by apply HP|].
    apply IH, apply_event_ok. by apply run_store_ok.
Qed.

Lemma run_log files s :
  store_ok s →
  log (fst (run files s)) =
    JoblibLoad model_path ::
    match loaded_model files with
    | Some model =>
        if str_eq (current_page s) "Project Overview" then [ImageOpen image_path]
        else if str_eq (current_page s) "Prediction" && submitted s
             then match model with
                  | Classifier _ => [ModelPredict (input_frame s)]
                  | Object => []
                  end
             else []
    | None => []
    end.
Proof.
  intros Hs. destruct (loaded_model files) as [model|] eqn:Hl.
  - destruct (current_page_cases s Hs) as [Hp|[Hp|Hp]]; rewrite Hp.
    + rewrite (run_overview_loaded files s model Hl Hp). simpl.
      by destruct (files image_path) as [[]|].
    + by rewrite (run_feature_explanation_loaded files s model Hl Hp).
    + rewrite (run_prediction_loaded files s model Hl Hp). simpl.
      destruct (submitted s); [|done].
      destruct model as [predict|]; [|done].
      by destruct (predict _) as [e|[|prediction rest]].
  - by rewrite (run_not_loaded files s Hl).
Qed.

(** ** Loading the model *)

(** C7, as stated, fails: the model is not loaded once per process; a
    session of two render cycles loads it twice. *)
Lemma model_loaded_again_after_navigation :
  concat ((λ r, loads (log (fst r))) <$> session_cycles files_ok [navigate 1])
  = [model_path; model_path].
Proof. reflexivity. Qed.

(** C7, amended: every render cycle of a session loads the model once, from
    the fixed path "exam_score_calss_model.pkl", as its first effect; a
    session that receives n events has n + 1 render cycles; and when the
    file is missing or unreadable (it is no pickle) every cycle ends in the
    exception of the load, with nothing rendered, no widget on the page and
    no other effect. *)
Theorem model_loaded_in_every_cycle files evs :
  model_path = "exam_score_calss_model.pkl"
  ∧ length (session_cycles files evs) = S (length evs)
  ∧ Forall (λ r, loads (log (fst r)) = [model_path]
                 ∧ head (log (fst r)) = Some (JoblibLoad model_path))
      (session_cycles files evs)
  ∧ match files model_path with
    | Some (Pickle _) | Some PickleOther => True
    | Some _ =>
        Forall (λ r, r = ({| widgets := ∅; out := [];
                             log := [JoblibLoad model_path] |},
                          inl (UnreadableFile model_path)))
          (session_cycles files evs)
    | None =>
        Forall (λ r, r = ({| widgets := ∅; out := [];
                             log := [JoblibLoad model_path] |},
                          inl (FileNotFoundError model_path)))
          (session_cycles files evs)
    end.
Proof.
  split; [reflexivity|]. split; [apply cycles_length|]. split.
  - apply cycles_Forall; [|apply store_ok_empty].
    intros s Hs. rewrite run_log by done. split; [|done].
    destruct (loaded_model files) as [model|]; [|done].
    destruct (str_eq _ "Project Overview"); [done|].
    destruct (_ && _); [|done]. by destruct model.
  - destruct (files model_path) as [[m| | |]|] eqn:Hm; [done|done|..].
    + apply cycles_Forall; [|apply store_ok_empty].
      intros s _. by apply (run_model_unreadable files s Jpeg).
    + apply cycles_Forall; [|apply store_ok_empty].
      intros s _. by apply (run_model_unreadable files s Other).
    + apply cycles_Forall; [|apply store_ok_empty].
      intros s _. by apply run_model_missing.
Qed.

(** ** Navigation *)

Lemma run_is_run_showing files s model (view : PyObject → M unit) p :
  loaded_model files = Some model →
  current_page s = VStr p →
  (if str_eq (VStr p) "Project Overview" then project_overview
   else if str_eq (VStr p) "Feature Explanation" then feature_explanation
   else if str_eq (VStr p) "Prediction" then prediction_page model
   else mret tt) = view model →
  run files s = run_showing view files s.
Proof.
  unfold current_page. intros (f & Hm & Hu)%loaded_model_file Hp Hv.
  cbv beta iota zeta delta
    [run run_showing app app_showing mbind M_bind mret M_ret perform emit
     st_widget raise open_file joblib_load fs session widgets out log].
  rewrite Hm.
  cbv beta iota zeta delta
    [mbind M_bind mret M_ret perform emit st_widget raise fs session widgets
     out log].
  rewrite Hu.
  cbv beta iota zeta delta
    [mbind M_bind mret M_ret perform emit st_widget raise fs session widgets
     out log].
  rewrite Hp. by rewrite <- Hv.
Qed.

(** What a run with a loaded object renders: the page configuration and
    the radio, then the selected page, which starts with its title and
    renders no other. *)
Lemma run_out_loaded files s model :
  store_ok s → loaded_model files = Some model →
  ∃ rest,
    out (fst (run files s)) = header (current_page s) ++ rest
    ∧ ((current_page s = VStr "Project Overview"
        ∧ titles rest = ["🎓 Student Performance Classification"])
       ∨ (current_page s = VStr "Feature Explanation"
          ∧ titles rest = ["📘 Feature Description & Input Guide"])
       ∨ (current_page s = VStr "Prediction"
          ∧ titles rest = ["🤖 Student Performance Classification"])).
Proof.
  intros Hs Hl.
  destruct (current_page_cases s Hs) as [Hp|[Hp|Hp]]; rewrite Hp.
  - rewrite (run_overview_loaded files s model Hl Hp). simpl.
    destruct (files image_path) as [[]|]; simpl;
      (eexists; split; [reflexivity|]; left; split; reflexivity).
  - rewrite (run_feature_explanation_loaded files s model Hl Hp). simpl.
    eexists; split; [reflexivity|]. right; left. split; reflexivity.
  - rewrite (run_prediction_loaded files s model Hl Hp). simpl.
    destruct (submitted s);
      [destruct model as [predict|];
       [destruct (predict _) as [e|[|prediction labels]]|]|]; simpl;
      (eexists; split; [reflexivity|]; right; right; split; reflexivity).
Qed.

(** C9, as stated, fails: a render cycle in which the model file is
    missing renders no view at all. *)
Lemma no_view_without_model :
  out (fst (last_cycle files_no_model [])) = []
  ∧ snd (last_cycle files_no_model []) = inl (FileNotFoundError model_path).
Proof. split; reflexivity. Qed.

(** C9, amended: the navigation radio is one selection; in a new session
    its value is "Project Overview"; and in every render cycle of every
    session in which the model file loads, the radio is rendered in the
    side bar with its value, which is one of the three page names, exactly
    one of the three guards of the dispatch holds, and exactly one page is
    rendered: the only title among the rendered elements is that of the
    selected page, and the run is the run of the script with that page's
    body in place of the dispatch. *)
Theorem navigation_selects_one_page files model evs :
  loaded_model files = Some model →
  current_page (session_input files []) = VStr "Project Overview"
  ∧ (Sidebar, widget "Navigation" (radio pages)
                (current_page (session_input files evs)))
    ∈ out (fst (last_cycle files evs))
  ∧ length (filter (λ p, str_eq (current_page (session_input files evs)) p = true)
              pages) = 1
  ∧ ((current_page (session_input files evs) = VStr "Project Overview"
       ∧ titles (out (fst (last_cycle files evs)))
         = ["🎓 Student Performance Classification"]
       ∧ last_cycle files evs
         = run_showing (λ _, project_overview) files (session_input files evs))
     ∨ (current_page (session_input files evs) = VStr "Feature Explanation"
       ∧ titles (out (fst (last_cycle files evs)))
         = ["📘 Feature Description & Input Guide"]
       ∧ last_cycle files evs
         = run_showing (λ _, feature_explanation) files (session_input files evs))
     ∨ (current_page (session_input files evs) = VStr "Prediction"
       ∧ titles (out (fst (last_cycle files evs)))
         = ["🤖 Student Performance Classification"]
       ∧ last_cycle files evs
         = run_showing prediction_page files (session_input files evs))).
Proof.
  intros Hl. split; [reflexivity|].
  pose proof (session_input_ok files evs) as Hs.
  unfold last_cycle. generalize dependent (session_input files evs). intros s Hs.
  destruct (run_out_loaded files s model Hs Hl) as (rest & Hout & Hrest).
  split.
  { rewrite Hout. apply elem_of_app. left. unfold header.
    apply elem_of_cons. right. by left. }
  assert (Ht : titles (out (fst (run files s))) = titles rest).
  { rewrite Hout. unfold titles, header. by rewrite omap_app. }
  rewrite Ht.
  destruct Hrest as [[Hp Hr]|[[Hp Hr]|[Hp Hr]]]; rewrite Hp; (split; [reflexivity|]).
  - left. split; [done|]. split; [done|].
    by apply (run_is_run_showing files s model _ "Project Overview").
  - right; left. split; [done|]. split; [done|].
    by apply (run_is_run_showing files s model _ "Feature Explanation").
  - right; right. split; [done|]. split; [done|].
    by apply (run_is_run_showing files s model _ "Prediction").
Qed.

Lemma navigation_selects_one_page_witness :
  current_page (session_input files_ok []) = VStr "Project Overview"
  ∧ (Sidebar, widget "Navigation" (radio pages)
                (current_page (session_input files_ok [navigate 2; submit])))
    ∈ out (fst (last_cycle files_ok [navigate 2; submit]))
  ∧ length (filter (λ p, str_eq (current_page
                                   (session_input files_ok [navigate 2; submit])) p
                         = true)
              pages) = 1
  ∧ ((current_page (session_input files_ok [navigate 2; submit])
       = VStr "Project Overview"
       ∧ titles (out (fst (last_cycle files_ok [navigate 2; submit])))
         = ["🎓 Student Performance Classification"]
       ∧ last_cycle files_ok [navigate 2; submit]
         = run_showing (λ _, project_overview) files_ok
             (session_input files_ok [navigate 2; submit]))
     ∨ (current_page (session_input files_ok [navigate 2; submit])
        = VStr "Feature Explanation"
       ∧ titles (out (fst (last_cycle files_ok [navigate 2; submit])))
         = ["📘 Feature Description & Input Guide"]
       ∧ last_cycle files_ok [navigate 2; submit]
         = run_showing (λ _, feature_explanation) files_ok
             (session_input files_ok [navigate 2; submit]))
     ∨ (current_page (session_input files_ok [navigate 2; submit])
        = VStr "Prediction"
       ∧ titles (out (fst (last_cycle files_ok [navigate 2; submit])))
         = ["🤖 Student Performance Classification"]
       ∧ last_cycle files_ok [navigate 2; submit]
         = run_showing prediction_page files_ok
             (session_input files_ok [navigate 2; submit]))).
Proof.
  apply (navigation_selects_one_page files_ok (Classifier (constant_model 1))
           [navigate 2; submit]).
  reflexivity.
Defined.

(** ** Widgets on the page after a run *)

Ltac map_lookup :=
  repeat first
    [ rewrite lookup_insert_eq
    | rewrite lookup_insert_ne by discriminate
    | rewrite lookup_empty ].

Lemma apply_event_other s ev label :
  target ev ≠ label → apply_event s ev !! label = s !! label.
Proof.
  intros Hne. unfold apply_event.
  destruct (s !! target ev) as [[spec w]|]; [|done].
  destruct (react spec (action ev)); [|done].
  by rewrite lookup_insert_ne.
Qed.

Lemma apply_event_absent s ev label :
  s !! label = None → apply_event s ev !! label = None.
Proof.
  intros Hl. destruct (decide (target ev = label)) as [Heq|Hne].
  - unfold apply_event. by rewrite Heq, Hl.
  - by rewrite apply_event_other.
Qed.

Lemma navigation_store_lookup page label :
  label ≠ "Navigation" → navigation_store page !! label = None.
Proof.
  intros Hne. unfold navigation_store.
  rewrite lookup_insert_ne by done. apply lookup_empty.
Qed.

Lemma prediction_store_button s :
  prediction_store s !! predict_button = Some (button, VBool false).
Proof. apply lookup_insert_eq. Qed.

Lemma prediction_store_navigation s :
  prediction_store s !! "Navigation" = Some (radio pages, VStr "Prediction").
Proof.
  unfold prediction_store, navigation_store, predict_button, controls.
  simpl. by map_lookup.
Qed.

Lemma control_label c :
  c ∈ controls → fst c ≠ "Navigation" ∧ fst c ≠ predict_button.
Proof.
  unfold controls, predict_button. intros Hc.
  repeat (apply elem_of_cons in Hc as [->|Hc]; [by split|]).
  by apply elem_of_nil in Hc.
Qed.

Lemma prediction_store_control s c :
  c ∈ controls →
  prediction_store s !! fst c = Some (snd c, widget_value s (fst c) (snd c)).
Proof.
  unfold controls. intros Hc.
  repeat (apply elem_of_cons in Hc as [->|Hc];
    [unfold prediction_store, navigation_store, predict_button, controls;
     simpl; by map_lookup|]).
  by apply elem_of_nil in Hc.
Qed.

Lemma widget_value_absent s label spec :
  s !! label = None → widget_value s label spec = default_value spec.
Proof. intros Hl. unfold widget_value. by rewrite Hl. Qed.

Lemma widget_value_present s label spec v :
  s !! label = Some (spec, v) → widget_value s label spec = v.
Proof. intros Hl. unfold widget_value. rewrite Hl. by rewrite decide_True. Qed.

Lemma run_predictions files s :
  store_ok s →
  predictions (log (fst (run files s))) =
    match files model_path with
    | Some (Pickle _) =>
        if str_eq (current_page s) "Prediction" && submitted s
        then [input_frame s] else []
    | _ => []
    end.
Proof.
  intros Hs. rewrite run_log by done. unfold loaded_model.
  destruct (files model_path) as [[m| | |]|]; simpl; try done;
    destruct (current_page_cases s Hs) as [Hp|[Hp|Hp]]; rewrite Hp; simpl;
    try done; by destruct (submitted s).
Qed.

(** ** Values of the controls *)

Lemma slider_float_range mn mx d st v :
  (0 < st)%Q → valid (slider_float mn mx d st) v →
  ∃ q, v = VFloat q ∧ (mn <= q <= mx)%Q.
Proof.
  intros Hst (q & k & -> & [Hk0 Hk] & Hq). exists q. split; [done|].
  assert (H0 : (0 <= inject_Z k)%Q) by (unfold Qle; simpl; lia).
  assert (H1 : (inject_Z k <= (mx - mn) / st)%Q).
  { eapply Qle_trans; [|apply Qfloor_le]. by rewrite <- Zle_Qle. }
  apply (Qmult_le_compat_r _ _ st) in H1; [|lra].
  assert (H2 : ((mx - mn) / st * st == mx - mn)%Q) by (field; lra).
  rewrite H2 in H1.
  assert (H3 : (0 <= inject_Z k * st)%Q) by (apply Qmult_le_0_compat; lra).
  rewrite Hq. split; lra.
Qed.

Lemma slider_float_domain mn mx d st v :
  (0 < st)%Q → valid (slider_float mn mx d st) v → in_domain (continuous mn mx) v.
Proof. apply slider_float_range. Qed.

Lemma slider_float_stepped mn mx d st v :
  (0 < st)%Q → valid (slider_float mn mx d st) v → in_domain (stepped mn mx st) v.
Proof.
  intros Hst Hv. destruct (slider_float_range _ _ _ _ _ Hst Hv) as (q & -> & Hq).
  destruct Hv as (q' & k & [= <-] & _ & Hk). exists q. eauto.
Qed.

Lemma control_valid s i label spec :
  controls !! i = Some (label, spec) →
  store_ok s → valid spec (widget_value s label spec).
Proof.
  intros Hi Hs. apply (control_value_valid s (label, spec) Hs).
  by eapply list_elem_of_lookup_2.
Qed.

Lemma control_values_domain s : store_ok s → record_in_domain (control_values s).
Proof.
  intros Hs. unfold record_in_domain, control_values, input_record, declared_domains.
  repeat apply Forall2_cons_2; try apply Forall2_nil_2; (split; [reflexivity|]); simpl.
  - by apply (slider_float_domain _ _ 7.0 0.1),
      (control_valid s 0 _ sleep_hours_slider).
  - by apply (control_valid s 1 _ exercise_frequency_slider).
  - by apply (slider_float_domain _ _ 5.0 0.1),
      (control_valid s 2 _ stress_level_slider).
  - by apply (slider_float_domain _ _ 5.0 0.1),
      (control_valid s 3 _ screen_time_slider).
  - by apply (control_valid s 8 _ study_environment_box).
  - by apply (control_valid s 9 _ access_to_tutoring_box).
  - by apply (control_valid s 4 _ motivation_level_slider).
  - by apply (slider_float_stepped _ _ 7.0),
      (control_valid s 5 _ exam_anxiety_score_slider).
  - by apply (control_valid s 6 _ study_efficiency_input).
  - by apply (control_valid s 7 _ screen_time_penalty_input).
Qed.

(** C4: in every render cycle of every session, the ten values the input
    controls return, which are the cells of the frame given to the model,
    lie in the declared domains: sleep_hours in [4.0, 12.0],
    exercise_frequency in [0, 7], stress_level in [1.0, 10.0], screen_time
    in [0.3, 21.0], study_environment and access_to_tutoring among their
    options, motivation_level in [1, 10], exam_anxiety_score in [5.0, 10.0]
    on the 0.5 grid, study_efficiency in [0.0, 5.75], screen_time_penalty in
    [0.0, 90.0]. *)
Theorem control_values_in_domain files evs :
  record_in_domain (control_values (session_input files evs))
  ∧ Forall (λ data, data = input_frame (session_input files evs))
      (predictions (log (fst (last_cycle files evs))))
  ∧ rows (input_frame (session_input files evs)) =
      [(λ kv, Some (snd kv)) <$> control_values (session_input files evs)].
Proof.
  pose proof (session_input_ok files evs) as Hs. split; [|split].
  - by apply control_values_domain.
  - unfold last_cycle. rewrite run_predictions by done.
    destruct (files model_path) as [[m| | |]|]; try apply Forall_nil_2.
    destruct (_ && _); [|apply Forall_nil_2].
    apply Forall_cons_2; [done|apply Forall_nil_2].
  - reflexivity.
Qed.

(** ** The submit button *)

Lemma submitted_idle s :
  s !! predict_button = None ∨ s !! predict_button = Some (button, VBool false) →
  submitted s = false.
Proof.
  unfold submitted. intros [Hl|Hl].
  - by rewrite (widget_value_absent _ _ _ Hl).
  - by rewrite (widget_value_present _ _ _ _ Hl).
Qed.

Lemma react_button a v :
  react button a = Some v → a = Click ∧ v = VBool true.
Proof. destruct a; simpl; [discriminate..|]. by intros [= <-]. Qed.

(** The widgets on the page after any run: the button is on the page
    exactly after a run of the Prediction page, and is idle then. *)
Lemma run_button files s :
  store_ok s →
  widgets (fst (run files s)) !! predict_button =
    match loaded_model files with
    | Some _ =>
        if str_eq (current_page s) "Prediction"
        then Some (button, VBool false) else None
    | None => None
    end.
Proof.
  intros Hs. rewrite run_widgets by done.
  destruct (loaded_model files) as [model|]; [|apply lookup_empty].
  destruct (str_eq _ "Prediction").
  - apply prediction_store_button.
  - by apply navigation_store_lookup.
Qed.

Lemma run_button_idle files s :
  store_ok s →
  widgets (fst (run files s)) !! predict_button = None
  ∨ (widgets (fst (run files s)) !! predict_button = Some (button, VBool false)
     ∧ widgets (fst (run files s)) !! "Navigation"
       = Some (radio pages, VStr "Prediction")
     ∧ ∃ model, loaded_model files = Some model).
Proof.
  intros Hs. rewrite run_widgets by done.
  destruct (loaded_model files) as [model|]; [|left; apply lookup_empty].
  destruct (str_eq _ "Prediction").
  - right. split; [apply prediction_store_button|].
    split; [apply prediction_store_navigation|]. by exists model.
  - left. by apply navigation_store_lookup.
Qed.

(** The guard of the prediction holds in a cycle exactly when the event
    that caused the cycle is a click on the button shown on the page. *)
Lemma click_guard files evs ev :
  str_eq (current_page (session_input files (evs ++ [ev]))) "Prediction"
  && submitted (session_input files (evs ++ [ev]))
  = clicks_predict (widgets (fst (last_cycle files evs))) ev.
Proof.
  rewrite session_input_snoc. unfold last_cycle.
  pose proof (session_input_ok files evs) as Hs0.
  destruct (run_button_idle files (session_input files evs) Hs0)
    as [Hb|(Hb & Hn & model & Hl)].
  - unfold clicks_predict. rewrite Hb. simpl.
    rewrite (submitted_idle (apply_event _ ev))
      by (left; by apply apply_event_absent).
    apply andb_false_r.
  - unfold clicks_predict. rewrite Hb. simpl.
    destruct (String.eqb_spec (target ev) predict_button) as [Ht|Ht]; simpl.
    + destruct (action ev) eqn:Ha.
      * rewrite (submitted_idle (apply_event _ ev)); [apply andb_false_r|].
        right. unfold apply_event. by rewrite Ht, Hb, Ha.
      * rewrite (submitted_idle (apply_event _ ev)); [apply andb_false_r|].
        right. unfold apply_event. by rewrite Ht, Hb, Ha.
      * assert (Hev : apply_event (widgets (fst (run files (session_input files evs)))) ev
                      = <[predict_button := (button, VBool true)]>
                          (widgets (fst (run files (session_input files evs))))).
        { unfold apply_event. by rewrite Ht, Hb, Ha. }
        rewrite Hev. unfold submitted, current_page.
        rewrite (widget_value_present _ predict_button button (VBool true))
          by apply lookup_insert_eq.
        rewrite (widget_value_present _ "Navigation" (radio pages) (VStr "Prediction"))
          by (by rewrite lookup_insert_ne).
        reflexivity.
    + rewrite (submitted_idle (apply_event _ ev)); [apply andb_false_r|].
      right. by rewrite apply_event_other.
Qed.

(** Without a loaded classifier the model is never called. *)
Lemma no_classifier_no_prediction files s :
  store_ok s → (∀ m, files model_path ≠ Some (Pickle m)) →
  predictions (log (fst (run files s))) = [].
Proof.
  intros Hs Hn. rewrite run_predictions by done.
  destruct (files model_path) as [[m| | |]|]; try done. by destruct (Hn m).
Qed.

(** C5: with a classifier loaded, a run of the Prediction page leaves the
    submit button on the page, and no other run does; an event is a click
    on that button exactly when the Prediction page is shown and the event
    is a click on the button's label; and the model is called in a render
    cycle exactly when the event that caused the cycle is such a click, and
    then exactly once, on the frame of that cycle.  The first cycle of a
    session, and every cycle caused by a navigation change or by a change
    of an input control, calls it not at all. *)
Theorem predict_only_on_submit files m evs ev :
  files model_path = Some (Pickle m) →
  predictions (log (fst (last_cycle files []))) = []
  ∧ widgets (fst (last_cycle files evs)) !! predict_button
    = (if str_eq (current_page (session_input files evs)) "Prediction"
       then Some (button, VBool false) else None)
  ∧ clicks_predict (widgets (fst (last_cycle files evs))) ev
    = str_eq (current_page (session_input files evs)) "Prediction"
      && String.eqb (target ev) predict_button
      && match action ev with Click => true | _ => false end
  ∧ predictions (log (fst (last_cycle files (evs ++ [ev])))) =
      if clicks_predict (widgets (fst (last_cycle files evs))) ev
      then [input_frame (session_input files (evs ++ [ev]))]
      else [].
Proof.
  intros Hm.
  pose proof (session_input_ok files evs) as Hs0.
  assert (Hb : widgets (fst (last_cycle files evs)) !! predict_button
               = if str_eq (current_page (session_input files evs)) "Prediction"
                 then Some (button, VBool false) else None).
  { unfold last_cycle. by rewrite run_button, (classifier_loaded _ _ Hm). }
  split; [|split; [|split]].
  - unfold last_cycle. rewrite run_predictions, Hm by apply session_input_ok.
    reflexivity.
  - exact Hb.
  - unfold clicks_predict. rewrite Hb.
    by destruct (str_eq _ "Prediction").
  - unfold last_cycle at 1.
    rewrite run_predictions, Hm by apply session_input_ok.
    by rewrite click_guard.
Qed.

Lemma predict_only_on_submit_witness :
  predictions (log (fst (last_cycle files_ok []))) = []
  ∧ widgets (fst (last_cycle files_ok [navigate 2])) !! predict_button
    = Some (button, VBool false)
  ∧ clicks_predict (widgets (fst (last_cycle files_ok [navigate 2]))) submit
    = true
  ∧ predictions (log (fst (last_cycle files_ok ([navigate 2] ++ [submit])))) =
      [input_frame (session_input files_ok ([navigate 2] ++ [submit]))].
Proof.
  exact (predict_only_on_submit files_ok (constant_model 1) [navigate 2] submit
           eq_refl).
Defined.

(** ** Revisiting the Prediction page *)

(** C3, as stated, fails: sleep hours set to 9.0 on the Prediction page
    read 7.0, the default, after a visit to the Overview page. *)
Lemma sleep_hours_lost_on_revisit :
  widgets (fst (last_cycle files_ok [navigate 2; set_sleep_hours 50]))
    !! "Sleep Hours per Day" = Some (sleep_hours_slider, VFloat 9)
  ∧ widgets (fst (last_cycle files_ok
       [navigate 2; set_sleep_hours 50; navigate 0; navigate 2]))
    !! "Sleep Hours per Day" = Some (sleep_hours_slider, VFloat 7.0)
  ∧ ¬ (7.0 == 9)%Q.
Proof. split; [|split]; [reflexivity..|discriminate]. Qed.

(** C3, amended: a run that does not select the Prediction page leaves none
    of its controls in the widget state of the session; so whenever the
    Prediction page is entered from another page, each of its ten controls
    shows its declared default value, whatever was set before. *)
Theorem controls_reset_when_revisited files evs m c :
  files model_path = Some (Pickle m) →
  current_page (session_input files evs) ≠ VStr "Prediction" →
  c ∈ controls →
  widgets (fst (last_cycle files evs)) !! fst c = None
  ∧ current_page (session_input files (evs ++ [navigate 2])) = VStr "Prediction"
  ∧ widgets (fst (last_cycle files (evs ++ [navigate 2]))) !! fst c
    = Some (snd c, default_value (snd c)).
Proof.
  intros Hm Hp Hc.
  pose proof (session_input_ok files evs) as Hs0.
  pose proof (session_input_ok files (evs ++ [navigate 2])) as Hs2.
  destruct (control_label c Hc) as [Hcn Hcb].
  assert (Hw : widgets (fst (last_cycle files evs))
               = navigation_store (current_page (session_input files evs))).
  { unfold last_cycle. rewrite run_widgets, (classifier_loaded _ _ Hm) by done.
    destruct (current_page_cases _ Hs0) as [H|[H|H]]; by rewrite H in *. }
  assert (Hs : session_input files (evs ++ [navigate 2])
               = <["Navigation" := (radio pages, VStr "Prediction")]>
                   (navigation_store (current_page (session_input files evs)))).
  { rewrite session_input_snoc, Hw. unfold apply_event, navigation_store. simpl.
    by rewrite lookup_insert_eq. }
  split; [|split].
  - rewrite Hw. by apply navigation_store_lookup.
  - rewrite Hs. apply widget_value_present, lookup_insert_eq.
  - assert (Hpage : current_page (session_input files (evs ++ [navigate 2]))
                    = VStr "Prediction").
    { rewrite Hs. apply widget_value_present, lookup_insert_eq. }
    unfold last_cycle.
    rewrite run_widgets, (classifier_loaded _ _ Hm), Hpage by done. simpl.
    rewrite prediction_store_control by done.
    rewrite widget_value_absent; [done|].
    rewrite Hs, lookup_insert_ne by done. by apply navigation_store_lookup.
Qed.

Lemma controls_reset_when_revisited_witness :
  widgets (fst (last_cycle files_ok [navigate 2; navigate 1]))
    !! "Stress Level" = None
  ∧ current_page (session_input files_ok ([navigate 2; navigate 1] ++ [navigate 2]))
    = VStr "Prediction"
  ∧ widgets (fst (last_cycle files_ok ([navigate 2; navigate 1] ++ [navigate 2])))
    !! "Stress Level" = Some (stress_level_slider, VFloat 5.0).
Proof.
  apply (controls_reset_when_revisited files_ok [navigate 2; navigate 1]
           (constant_model 1) ("Stress Level", stress_level_slider)).
  - reflexivity.
  - vm_compute. discriminate.
  - unfold controls. do 2 right. by left.
Defined.

(** X9: while the Prediction page stays selected, an event on one widget
    (a change of another control, a click on the button) leaves the value of
    every other control on the page as it was. *)
Lemma control_kept_while_page_stays files evs ev c v :
  c ∈ controls →
  widgets (fst (last_cycle files evs)) !! fst c = Some (snd c, v) →
  target ev ≠ "Navigation" → target ev ≠ fst c →
  widgets (fst (last_cycle files (evs ++ [ev]))) !! fst c = Some (snd c, v).
Proof.
  intros Hc Hv Hn Ht.
  pose proof (session_input_ok files evs) as Hs0.
  pose proof (session_input_ok files (evs ++ [ev])) as Hs2.
  destruct (control_label c Hc) as [Hcn Hcb].
  unfold last_cycle in *. rewrite session_input_snoc in *. unfold last_cycle in *.
  set (s1 := widgets (fst (run files (session_input files evs)))) in *.
  assert (Hnav : s1 !! "Navigation" = Some (radio pages, VStr "Prediction")
                 ∧ ∃ model, loaded_model files = Some model).
  { unfold s1 in *. rewrite run_widgets in * by done.
    destruct (loaded_model files) as [model|]; [|by rewrite lookup_empty in Hv].
    destruct (str_eq _ "Prediction").
    - split; [apply prediction_store_navigation|by exists model].
    - by rewrite navigation_store_lookup in Hv. }
  destruct Hnav as [Hnav [model Hl]].
  rewrite run_widgets, Hl by done.
  assert (Hpage : current_page (apply_event s1 ev) = VStr "Prediction").
  { apply widget_value_present. by rewrite apply_event_other. }
  rewrite Hpage. simpl. rewrite prediction_store_control by done.
  f_equal. f_equal. apply widget_value_present. by rewrite apply_event_other.
Qed.

(** ** Examples *)

(** Both ends of the sleep-hours slider are positions of the control, and
    there is no position beyond the upper end. *)
Example sleep_hours_positions :
  react sleep_hours_slider (Pick 0) = Some (VFloat 4)
  ∧ react sleep_hours_slider (Pick 80) = Some (VFloat 12)
  ∧ react sleep_hours_slider (Pick 81) = None
  ∧ react screen_time_slider (Pick 207) = Some (VFloat 21)
  ∧ react study_efficiency_input (Enter 5.75) = Some (VFloat 5.75)
  ∧ react study_efficiency_input (Enter 5.8) = None.
Proof. repeat split; reflexivity. Qed.

(** A submission with every control at its default. *)

Example default_submission :
  snd (last_cycle files_ok [navigate 2; submit]) = inr tt
  ∧ last (out (fst (last_cycle files_ok [navigate 2; submit]))) =
      Some (Main, success "📊 Predicted Performance Level: **⚠️ Average**")
  ∧ log (fst (last_cycle files_ok [navigate 2; submit])) =
      [ JoblibLoad model_path;
        ModelPredict
          {| columns :=
               [ "sleep_hours"; "exercise_frequency"; "stress_level";
                 "screen_time"; "study_environment"; "access_to_tutoring";
                 "motivation_level"; "exam_anxiety_score"; "study_efficiency";
                 "screen_time_penalty" ];
             rows :=
               [ [ Some (VFloat 7.0); Some (VInt 3); Some (VFloat 5.0);
                   Some (VFloat 5.0); Some (VStr "Quiet Room");
                   Some (VStr "Yes"); Some (VInt 6); Some (VFloat 7.0);
                   Some (VFloat 2.0); Some (VFloat 10.0) ] ] |} ].
Proof. repeat split; vm_compute; reflexivity. Qed.

(** * Further properties of the script *)

Lemma str_eq_true v s : str_eq v s = true → v = VStr s.
Proof.
  destruct v as [| |t| |]; simpl; try discriminate.
  intros H. by apply String.eqb_eq in H as ->.
Qed.

(** ** The Overview page with its image *)

(** X1: when the image file is a readable image, a run that selects the
    Overview page ends normally and renders, whatever the widget state of
    the session: the title, the image at full width, the heading, a block
    of two columns with the metric "Number of Rows" = "≈ 82,000" in the
    first and "Number of Features" = "31" in the second, and the text.  It
    loads the model and opens the image and performs no other effect. *)
Theorem overview_renders_fully files s m :
  files model_path = Some (Pickle m) →
  files image_path = Some Jpeg →
  current_page s = VStr "Project Overview" →
  run files s =
    ({| widgets := navigation_store (VStr "Project Overview");
        out := header (VStr "Project Overview") ++
          [ (Main, title "🎓 Student Performance Classification");
            (Main, image image_path true);
            (Main, markdown "## 📊 Dataset Overview");
            (Main, columns_block 2);
            (Column 0, metric "Number of Rows" "≈ 82,000");
            (Column 1, metric "Number of Features" "31");
            (Main, markdown overview_text) ];
        log := [JoblibLoad model_path; ImageOpen image_path] |}, inr tt).
Proof.
  intros Hm Hi Hp. rewrite (run_overview files s m Hm Hp). simpl.
  by rewrite Hi.
Qed.

Lemma overview_renders_fully_witness :
  run files_ok back_on_overview =
    ({| widgets := navigation_store (VStr "Project Overview");
        out := header (VStr "Project Overview") ++
          [ (Main, title "🎓 Student Performance Classification");
            (Main, image image_path true);
            (Main, markdown "## 📊 Dataset Overview");
            (Main, columns_block 2);
            (Column 0, metric "Number of Rows" "≈ 82,000");
            (Column 1, metric "Number of Features" "31");
            (Main, markdown overview_text) ];
        log := [JoblibLoad model_path; ImageOpen image_path] |}, inr tt).
Proof.
  apply (overview_renders_fully files_ok back_on_overview (constant_model 1));
    vm_compute; reflexivity.
Defined.

(** ** The other pages do not depend on the image *)

(** X2: a run that does not select the Overview page reads no file but
    the model: two file systems that agree on the model path give the same
    run, so a missing or unreadable image affects neither the Feature
    Explanation page nor the Prediction page. *)
Theorem other_pages_ignore_image files1 files2 s :
  files1 model_path = files2 model_path →
  str_eq (current_page s) "Project Overview" = false →
  run files1 s = run files2 s.
Proof.
  intros Hf Hp.
  assert (Hl : loaded_model files1 = loaded_model files2)
    by (unfold loaded_model; by rewrite Hf).
  destruct (loaded_model files2) as [model|] eqn:Hl2.
  - destruct (str_eq (current_page s) "Feature Explanation") eqn:H2.
    { apply str_eq_true in H2.
      by rewrite (run_feature_explanation_loaded files1 s model),
                 (run_feature_explanation_loaded files2 s model). }
    destruct (str_eq (current_page s) "Prediction") eqn:H3.
    { apply str_eq_true in H3.
      by rewrite (run_prediction_loaded files1 s model),
                 (run_prediction_loaded files2 s model). }
    by rewrite (run_no_page_loaded files1 s model),
               (run_no_page_loaded files2 s model).
  - rewrite (run_not_loaded files1 s Hl), (run_not_loaded files2 s Hl2).
    by rewrite Hf.
Qed.

Lemma other_pages_ignore_image_witness :
  run files_ok after_submit = run files_no_image after_submit.
Proof.
  apply (other_pages_ignore_image files_ok files_no_image after_submit);
    vm_compute; reflexivity.
Defined.

(** ** The labels tell the classes apart *)

Lemma prediction_label_cases (z : Z) :
  (z = 0 ∧ prediction_label z = "❌ At Risk")%Z
  ∨ (z = 1 ∧ prediction_label z = "⚠️ Average")%Z
  ∨ (z = 2 ∧ prediction_label z = "✅ High Performer")%Z
  ∨ ((z < 0 ∨ 2 < z)%Z ∧ prediction_label z = "Unknown").
Proof.
  destruct (decide (z = 0%Z)) as [->|H0]; [by left|].
  destruct (decide (z = 1%Z)) as [->|H1]; [by right; left|].
  destruct (decide (z = 2%Z)) as [->|H2]; [by right; right; left|].
  right; right; right. split; [lia|].
  unfold prediction_label, class_mapping.
  rewrite !lookup_insert_ne by done. by rewrite lookup_empty.
Qed.

(** X3: the three labels of [class_mapping] and the fallback are four
    different strings: two predictions get the same label exactly when they
    are the same class or both lie outside 0..2, and the label is "Unknown"
    exactly for a prediction outside 0..2. *)
Theorem prediction_label_separates (a b : Z) :
  (prediction_label a = prediction_label b
   ↔ a = b ∨ ((a < 0 ∨ 2 < a) ∧ (b < 0 ∨ 2 < b))%Z)
  ∧ (prediction_label a = "Unknown" ↔ (a < 0 ∨ 2 < a)%Z).
Proof.
  destruct (prediction_label_cases a) as [[-> Ha]|[[-> Ha]|[[-> Ha]|[Ha' Ha]]]];
  destruct (prediction_label_cases b) as [[-> Hb]|[[-> Hb]|[[-> Hb]|[Hb' Hb]]]];
  rewrite ?Ha, ?Hb; (split; split);
    try (intros _; first [by left | by right | lia | done]);
    try (intros H; first [discriminate H | lia | done]).
Qed.

(** ** The glossary and the record name the same attributes *)

(** X4: the keys of [feature_info] are ten different names, and they are,
    in the same order, the column names of the frame every submission gives
    the model: the glossary documents exactly the model's inputs. *)
Theorem glossary_documents_model_inputs s :
  NoDup (fst <$> feature_info)
  ∧ length feature_info = 10
  ∧ fst <$> feature_info = columns (input_frame s)
  ∧ fst <$> feature_info = fst <$> declared_domains.
Proof.
  split; [|repeat split; reflexivity].
  compute_done.
Qed.

(** ** Outcome and result message of a run *)

Lemma run_outcome files s :
  store_ok s →
  snd (run files s) =
    match loaded_model files with
    | Some model =>
        if str_eq (current_page s) "Project Overview" then
          match files image_path with
          | Some Jpeg => inr tt
          | Some _ => inl (UnreadableFile image_path)
          | None => inl (FileNotFoundError image_path)
          end
        else if str_eq (current_page s) "Prediction" && submitted s then
          match model with
          | Classifier predict =>
              match predict (input_frame s) with
              | inr (_ :: _) => inr tt
              | inr [] => inl IndexError
              | inl e => inl e
              end
          | Object => inl AttributeError
          end
        else inr tt
    | None =>
        inl match files model_path with
            | Some _ => UnreadableFile model_path
            | None => FileNotFoundError model_path
            end
    end.
Proof.
  intros Hs. destruct (loaded_model files) as [model|] eqn:Hl.
  - destruct (current_page_cases s Hs) as [Hp|[Hp|Hp]]; rewrite Hp.
    + rewrite (run_overview_loaded files s model Hl Hp). simpl.
      by destruct (files image_path) as [[]|].
    + by rewrite (run_feature_explanation_loaded files s model Hl Hp).
    + rewrite (run_prediction_loaded files s model Hl Hp). simpl.
      destruct (submitted s); [|done].
      destruct model as [predict|]; [|done].
      by destruct (predict _) as [e|[|prediction rest]].
  - by rewrite (run_not_loaded files s Hl).
Qed.

Lemma run_results files s :
  store_ok s →
  results (out (fst (run files s))) =
    match files model_path with
    | Some (Pickle m) =>
        if str_eq (current_page s) "Prediction" && submitted s then
          match m (input_frame s) with
          | inr (prediction :: _) => [result_message prediction]
          | _ => []
          end
        else []
    | _ => []
    end.
Proof.
  intros Hs. destruct (loaded_model files) as [model|] eqn:Hl.
  - destruct (loaded_model_file files model Hl) as (f & Hm & Hu). rewrite Hm.
    destruct (current_page_cases s Hs) as [Hp|[Hp|Hp]]; rewrite Hp.
    + rewrite (run_overview_loaded files s model Hl Hp). simpl.
      destruct (files image_path) as [[]|]; by destruct f.
    + rewrite (run_feature_explanation_loaded files s model Hl Hp).
      by destruct f.
    + rewrite (run_prediction_loaded files s model Hl Hp). simpl.
      destruct f as [m| | |]; simplify_eq/=;
        destruct (submitted s); try done.
      by destruct (m _) as [e|[|prediction rest]].
  - rewrite (run_not_loaded files s Hl). unfold loaded_model in Hl.
    by destruct (files model_path) as [[m| | |]|].
Qed.

(** ** No result is shown stale *)

(** X5: a result message is rendered only in the render cycle a click on
    the submit button causes.  The first cycle of a session shows none, and
    the cycle after any other event (a navigation change, a change of an
    input control, also right after a submission) shows none: the message
    of an earlier submission is gone. *)
Theorem no_stale_result files evs ev :
  clicks_predict (widgets (fst (last_cycle files evs))) ev = false →
  results (out (fst (last_cycle files []))) = []
  ∧ results (out (fst (last_cycle files (evs ++ [ev])))) = [].
Proof.
  intros Hc. split.
  - unfold last_cycle. rewrite run_results by apply session_input_ok.
    by destruct (files model_path) as [[m| | |]|].
  - unfold last_cycle at 1. rewrite run_results by apply session_input_ok.
    destruct (files model_path) as [[m| | |]|] eqn:Hm; try done.
    rewrite click_guard. by rewrite Hc.
Qed.

Lemma no_stale_result_witness :
  results (out (fst (last_cycle files_ok []))) = []
  ∧ results (out (fst (last_cycle files_ok
      ([navigate 2; submit] ++ [set_sleep_hours 50])))) = [].
Proof.
  apply (no_stale_result files_ok [navigate 2; submit] (set_sleep_hours 50)).
  vm_compute. reflexivity.
Defined.

(** ** How a render cycle can end *)


(** X7: with a readable model and a readable image, and a model that
    returns at least one label for every frame, no render cycle of any
    session raises. *)
Theorem session_never_raises files m evs :
  files model_path = Some (Pickle m) →
  files image_path = Some Jpeg →
  (∀ data, ∃ prediction rest, m data = inr (prediction :: rest)) →
  snd (last_cycle files evs) = inr tt.
Proof.
  intros Hm Hi Hne. unfold last_cycle.
  rewrite run_outcome, (classifier_loaded _ _ Hm), Hi by apply session_input_ok.
  destruct (str_eq _ "Project Overview"); [done|].
  destruct (_ && _); [|done].
  destruct (Hne (input_frame (session_input files evs)))
    as (prediction & rest & E).
  by rewrite E.
Qed.

Lemma session_never_raises_witness :
  snd (last_cycle files_ok [navigate 2; set_sleep_hours 50; submit; navigate 0])
  = inr tt.
Proof.
  apply (session_never_raises files_ok (constant_model 1)).
  - reflexivity.
  - reflexivity.
  - intros data. by exists 1%Z, [].
Defined.

(** X8: a submission for which the model returns no label raises
    [IndexError] at [model.predict(input_data)[0]]: the model has been
    called once, the form is on the page with its values, and no result
    message is rendered. *)
Theorem submit_with_empty_prediction files s m :
  files model_path = Some (Pickle m) →
  current_page s = VStr "Prediction" →
  submitted s = true →
  m (input_frame s) = inr [] →
  snd (run files s) = inl IndexError
  ∧ predictions (log (fst (run files s))) = [input_frame s]
  ∧ results (out (fst (run files s))) = []
  ∧ widgets (fst (run files s)) = prediction_store s.
Proof.
  intros Hm Hp Hb Hz. rewrite (run_prediction files s m Hm Hp). simpl.
  rewrite Hb, Hz. repeat split; reflexivity.
Qed.

Lemma submit_with_empty_prediction_witness :
  snd (run files_empty_model after_submit) = inl IndexError
  ∧ predictions (log (fst (run files_empty_model after_submit)))
    = [input_frame after_submit]
  ∧ results (out (fst (run files_empty_model after_submit))) = []
  ∧ widgets (fst (run files_empty_model after_submit))
    = prediction_store after_submit.
Proof.
  apply (submit_with_empty_prediction files_empty_model after_submit empty_model);
    vm_compute; reflexivity.
Defined.

(** ** Values that stay, values that reach the model *)

(** An instance of [control_kept_while_page_stays]: the sleep hours set
    before a submission are still on the page after it. *)
Lemma control_kept_while_page_stays_witness :
  widgets (fst (last_cycle files_ok
    ([navigate 2; set_sleep_hours 50] ++ [submit])))
    !! "Sleep Hours per Day" = Some (sleep_hours_slider, VFloat 9).
Proof.
  apply (control_kept_while_page_stays files_ok
           [navigate 2; set_sleep_hours 50] submit
           ("Sleep Hours per Day", sleep_hours_slider) (VFloat 9)).
  - unfold controls. by left.
  - vm_compute. reflexivity.
  - discriminate.
  - discriminate.
Defined.

Lemma control_on_page files s c :
  store_ok s → c ∈ controls →
  is_Some (widgets (fst (run files s)) !! fst c) →
  (∃ model, loaded_model files = Some model)
  ∧ current_page s = VStr "Prediction"
  ∧ widgets (fst (run files s)) = prediction_store s.
Proof.
  intros Hs Hc. destruct (control_label c Hc) as [Hcn _].
  rewrite run_widgets by done.
  destruct (loaded_model files) as [model|];
    [|rewrite lookup_empty; by intros [? ?]].
  destruct (str_eq _ "Prediction") eqn:Hp.
  - intros _. split; [by exists model|]. split; [by apply str_eq_true|done].
  - rewrite navigation_store_lookup by done. by intros [? ?].
Qed.

(** X10: a value the user gives a control of the Prediction page is the
    value the model receives at the next submission: after the event on
    the control and the click on the button, the widget call of that
    control returns the value, and the model is called once on the frame
    assembled from the widget calls of that cycle (the loaded object being
    a classifier: an object without [predict] is never called). *)
Theorem set_value_reaches_model files evs c a v :
  c ∈ controls →
  is_Some (widgets (fst (last_cycle files evs)) !! fst c) →
  react (snd c) a = Some v →
  widget_value (session_input files (evs ++ [mkEvent (fst c) a; submit]))
    (fst c) (snd c) = v
  ∧ predictions (log (fst (last_cycle files (evs ++ [mkEvent (fst c) a; submit]))))
    = match files model_path with
      | Some (Pickle _) =>
          [input_frame (session_input files (evs ++ [mkEvent (fst c) a; submit]))]
      | _ => []
      end.
Proof.
  intros Hc Hon Hr.
  destruct (control_label c Hc) as [Hcn Hcb].
  pose proof (session_input_ok files evs) as Hs0.
  destruct (control_on_page files _ c Hs0 Hc Hon) as ([model Hl] & Hp0 & Hw1).
  replace (evs ++ [mkEvent (fst c) a; submit])
    with ((evs ++ [mkEvent (fst c) a]) ++ [submit]) by (by rewrite <- app_assoc).
  pose proof (session_input_ok files (evs ++ [mkEvent (fst c) a])) as Hs2.
  pose proof (session_input_ok files ((evs ++ [mkEvent (fst c) a]) ++ [submit])) as Hs4.
  assert (E2 : session_input files (evs ++ [mkEvent (fst c) a])
               = <[fst c := (snd c, v)]>
                   (prediction_store (session_input files evs))).
  { rewrite session_input_snoc. unfold last_cycle. rewrite Hw1.
    unfold apply_event. simpl. by rewrite prediction_store_control, Hr. }
  assert (Hp2 : current_page (session_input files (evs ++ [mkEvent (fst c) a]))
                = VStr "Prediction").
  { rewrite E2. apply widget_value_present.
    rewrite lookup_insert_ne by done. apply prediction_store_navigation. }
  assert (E4 : session_input files ((evs ++ [mkEvent (fst c) a]) ++ [submit])
               = <[predict_button := (button, VBool true)]>
                   (prediction_store
                      (session_input files (evs ++ [mkEvent (fst c) a])))).
  { rewrite session_input_snoc. unfold last_cycle.
    rewrite run_widgets, Hl, Hp2 by done. simpl.
    unfold apply_event. simpl. by rewrite prediction_store_button. }
  assert (Hv : widget_value (session_input files ((evs ++ [mkEvent (fst c) a]) ++ [submit]))
                 (fst c) (snd c) = v).
  { rewrite E4. apply widget_value_present.
    rewrite lookup_insert_ne by done. rewrite prediction_store_control by done.
    f_equal. f_equal. rewrite E2. apply widget_value_present, lookup_insert_eq. }
  split; [done|].
  unfold last_cycle. rewrite run_predictions by done.
  assert (Hp4 : current_page (session_input files ((evs ++ [mkEvent (fst c) a]) ++ [submit]))
                = VStr "Prediction").
  { rewrite E4. apply widget_value_present.
    rewrite lookup_insert_ne by done. apply prediction_store_navigation. }
  assert (Hb4 : submitted (session_input files ((evs ++ [mkEvent (fst c) a]) ++ [submit]))
                = true).
  { rewrite E4. unfold submitted.
    by rewrite (widget_value_present _ _ _ (VBool true)) by apply lookup_insert_eq. }
  rewrite Hp4, Hb4. by destruct (files model_path) as [[m| | |]|].
Qed.

Lemma set_value_reaches_model_witness :
  widget_value
    (session_input files_ok
       ([navigate 2] ++ [mkEvent "Study Efficiency" (Enter 3.25); submit]))
    "Study Efficiency" study_efficiency_input = VFloat 3.25
  ∧ predictions (log (fst (last_cycle files_ok
      ([navigate 2] ++ [mkEvent "Study Efficiency" (Enter 3.25); submit]))))
    = [input_frame (session_input files_ok
        ([navigate 2] ++ [mkEvent "Study Efficiency" (Enter 3.25); submit]))].
Proof.
  apply (set_value_reaches_model files_ok [navigate 2]
           ("Study Efficiency", study_efficiency_input) (Enter 3.25)
           (VFloat 3.25)).
  - unfold controls. do 6 right. by left.
  - vm_compute. eauto.
  - reflexivity.
Defined.

(** ** Navigation *)

Lemma navigation_on_page files s model :
  store_ok s → loaded_model files = Some model →
  widgets (fst (run files s)) !! "Navigation"
  = Some (radio pages, current_page s).
Proof.
  intros Hs Hl. rewrite run_widgets, Hl by done.
  destruct (str_eq _ "Prediction") eqn:Hp.
  - apply str_eq_true in Hp. rewrite Hp. apply prediction_store_navigation.
  - apply lookup_insert_eq.
Qed.

(** X11: whenever the model loads, the navigation radio is on the page
    after every render cycle, also after one that ended in an exception,
    and picking option [i] of the radio makes the next cycle select the
    page of that name, whatever the session did before. *)
Theorem navigate_selects_page files m evs i p :
  files model_path = Some (Pickle m) →
  pages !! i = Some p →
  widgets (fst (last_cycle files evs)) !! "Navigation"
    = Some (radio pages, current_page (session_input files evs))
  ∧ current_page (session_input files (evs ++ [navigate i])) = VStr p.
Proof.
  intros Hm Hi.
  pose proof (navigation_on_page files _ _ (session_input_ok files evs)
                (classifier_loaded _ _ Hm)) as Hn.
  split; [done|].
  rewrite session_input_snoc. unfold last_cycle, apply_event. simpl.
  rewrite Hn. simpl. rewrite Hi. simpl.
  apply widget_value_present, lookup_insert_eq.
Qed.

Lemma navigate_selects_page_witness :
  widgets (fst (last_cycle files_no_image [navigate 2; navigate 0]))
    !! "Navigation"
    = Some (radio pages,
            current_page (session_input files_no_image [navigate 2; navigate 0]))
  ∧ current_page (session_input files_no_image
      ([navigate 2; navigate 0] ++ [navigate 1])) = VStr "Feature Explanation".
Proof.
  apply (navigate_selects_page files_no_image (constant_model 1)
           [navigate 2; navigate 0] 1 "Feature Explanation"); reflexivity.
Defined.

(** ** Rendering again without a change *)

(** A run of the Prediction page depends on the widget state only through
    what the widget calls return. *)
Lemma run_prediction_ext files model s s' :
  loaded_model files = Some model →
  current_page s = VStr "Prediction" →
  current_page s' = VStr "Prediction" →
  (∀ c, c ∈ controls →
        widget_value s' (fst c) (snd c) = widget_value s (fst c) (snd c)) →
  widget_value s' predict_button button = widget_value s predict_button button →
  run files s' = run files s.
Proof.
  intros Hl Hp Hp' Hc Hb.
  rewrite (run_prediction_loaded files s model Hl Hp),
          (run_prediction_loaded files s' model Hl Hp').
  assert (HF : Forall (λ c, widget_value s' (fst c) (snd c)
                            = widget_value s (fst c) (snd c)) controls)
    by (by apply Forall_forall).
  unfold controls in HF.
  repeat (apply Forall_cons in HF as [? HF]).
  unfold submitted, input_frame, control_values, prediction_store, controls.
  cbn [foldl fst snd take drop fmap list_fmap] in *.
  repeat match goal with
         | H : widget_value s' _ _ = _ |- _ => rewrite H; clear H
         end.
  reflexivity.
Qed.

Lemma idle_button_value s :
  store_ok s → submitted s = false →
  widget_value s predict_button button = VBool false.
Proof.
  intros Hs Hb. unfold submitted in Hb.
  destruct (widget_value_valid s predict_button button Hs) as [b Hv];
    [by exists false|].
  rewrite Hv in *. simpl in Hb. by rewrite Hb.
Qed.

Lemma rerun_stable files s :
  store_ok s → submitted s = false →
  run files (widgets (fst (run files s))) = run files s.
Proof.
  intros Hs Hb. destruct (loaded_model files) as [model|] eqn:Hl.
  - rewrite run_widgets, Hl by done.
    destruct (current_page_cases s Hs) as [Hp|[Hp|Hp]]; rewrite Hp; simpl.
    + rewrite (run_overview_loaded files s model Hl Hp).
      apply (run_overview_loaded files _ model Hl).
      apply widget_value_present, lookup_insert_eq.
    + rewrite (run_feature_explanation_loaded files s model Hl Hp).
      apply (run_feature_explanation_loaded files _ model Hl).
      apply widget_value_present, lookup_insert_eq.
    + apply (run_prediction_ext files model).
      * exact Hl.
      * exact Hp.
      * apply widget_value_present, prediction_store_navigation.
      * intros c Hc. apply widget_value_present.
        by apply prediction_store_control.
      * rewrite (idle_button_value s Hs Hb).
        apply widget_value_present, prediction_store_button.
  - by rewrite !(run_not_loaded files _ Hl).
Qed.

(** X12: an interaction that changes no widget value (a number the input
    refuses, a position the slider does not have, an event for a widget
    that is not on the page) renders the same page again: the cycle it
    causes equals the cycle before, provided that one was not a
    submission. *)
Theorem unchanged_state_rerenders_same files evs ev :
  submitted (session_input files evs) = false →
  apply_event (widgets (fst (last_cycle files evs))) ev
    = widgets (fst (last_cycle files evs)) →
  last_cycle files (evs ++ [ev]) = last_cycle files evs.
Proof.
  intros Hb Hev. unfold last_cycle at 1.
  rewrite session_input_snoc, Hev. unfold last_cycle.
  apply rerun_stable; [apply session_input_ok|done].
Qed.

Lemma unchanged_state_rerenders_same_witness :
  last_cycle files_ok
    ([navigate 2; set_sleep_hours 50]
       ++ [mkEvent "Study Efficiency" (Enter 5.8)])
  = last_cycle files_ok [navigate 2; set_sleep_hours 50].
Proof.
  apply (unchanged_state_rerenders_same files_ok
           [navigate 2; set_sleep_hours 50]
           (mkEvent "Study Efficiency" (Enter 5.8)));
    vm_compute; reflexivity.
Defined.

(** ** A pickle that is not a model *)

(** X13: [joblib.load] does not check what it loads.  When the model file
    is a pickle of an object without [predict], the Prediction page renders
    its form like any other run, and a submission raises [AttributeError]
    at [model.predict]: nothing is called, no result message is rendered,
    and the form's widgets stay on the page. *)
Theorem non_model_pickle_fails_on_submit files s :
  files model_path = Some PickleOther →
  current_page s = VStr "Prediction" →
  submitted s = true →
  snd (run files s) = inl AttributeError
  ∧ predictions (log (fst (run files s))) = []
  ∧ results (out (fst (run files s))) = []
  ∧ titles (out (fst (run files s))) = ["🤖 Student Performance Classification"]
  ∧ widgets (fst (run files s)) = prediction_store s.
Proof.
  intros Hm Hp Hb.
  assert (Hl : loaded_model files = Some Object)
    by (unfold loaded_model; by rewrite Hm).
  rewrite (run_prediction_loaded files s Object Hl Hp). simpl.
  rewrite Hb. repeat split; reflexivity.
Qed.

Lemma non_model_pickle_fails_on_submit_witness :
  snd (run files_other_pickle after_submit_other_pickle) = inl AttributeError
  ∧ predictions (log (fst (run files_other_pickle after_submit_other_pickle)))
    = []
  ∧ results (out (fst (run files_other_pickle after_submit_other_pickle))) = []
  ∧ titles (out (fst (run files_other_pickle after_submit_other_pickle)))
    = ["🤖 Student Performance Classification"]
  ∧ widgets (fst (run files_other_pickle after_submit_other_pickle))
    = prediction_store after_submit_other_pickle.
Proof.
  apply (non_model_pickle_fails_on_submit files_other_pickle
           after_submit_other_pickle); vm_compute; reflexivity.
Defined.
